(** * models.py: the fitness-tracking schema and its two example workflows

    A shallow embedding of [models.py]: the five SQLModel tables, the
    unit of work of an ORM session (pending and dirty objects, flush,
    commit, the rollback on leaving a [with Session(engine)] block) and
    the two functions [query_workout_type_table] and
    [create_workout_session], followed by the properties of the schema
    and of the composite operation.

    Conventions.
    - A [datetime] is a number of microseconds since the epoch, the
      resolution of Python's [datetime].
    - A Python [float] is an exact rational: the literals [50.0] and
      [25.0] are exact, and [delta.total_seconds() / 60] is taken without
      rounding.
    - [Relationship] attributes are views over the foreign keys and hold
      no column; they are not part of a row.
    - The engine is the caller's.  Every engine enforces the primary
      keys and [NOT NULL] for a column whose annotation is not
      [Optional]; whether it enforces the foreign keys the schema
      declares is the engine's choice ([models.py] never asks for it)
      and a parameter here, [foreign_keys].  The schema declares no
      check constraint.
    - A Python [int] has no bound, and a key is any integer; what a
      driver does with an integer that its column cannot hold is left
      out, see [storable].
    - An attribute of a Python object can hold [None] whatever its
      annotation says (a [table=True] model is not validated on
      construction); what the annotation decides is whether the column
      is [NOT NULL], which is checked when the row is inserted. *)

From Stdlib Require Import ZArith QArith Qround String Lia.
From stdpp Require Import base decidable option strings numbers list.

Open Scope Z_scope.

Definition datetime := Z.
Definition py_float := Q.

(** ** The tables *)

Module User.
Record t := mk {
  created_timestamp : option datetime;
  last_edited_timestamp : option datetime;
  user_id : option Z;
  username : string;
  email : string;
  password_hash : string;
  first_name : option string;
  last_name : option string }.

Definition with_key (k : Z) (x : t) : t :=
  mk (created_timestamp x) (last_edited_timestamp x) (Some k)
     (username x) (email x) (password_hash x) (first_name x) (last_name x).

Definition touch (now : datetime) (x : t) : t :=
  mk (created_timestamp x) (Some now) (user_id x)
     (username x) (email x) (password_hash x) (first_name x) (last_name x).

Definition with_created (now : datetime) (x : t) : t :=
  mk (Some now) (last_edited_timestamp x) (user_id x)
     (username x) (email x) (password_hash x) (first_name x) (last_name x).
End User.

Module WorkoutType.
Record t := mk {
  created_timestamp : option datetime;
  last_edited_timestamp : option datetime;
  workout_type_id : option Z;
  workout_name : string;
  muscle_group_targeted : string;
  category_type : option string;
  description : option string;
  difficulty_level : option string }.

Definition with_key (k : Z) (x : t) : t :=
  mk (created_timestamp x) (last_edited_timestamp x) (Some k)
     (workout_name x) (muscle_group_targeted x) (category_type x)
     (description x) (difficulty_level x).

Definition touch (now : datetime) (x : t) : t :=
  mk (created_timestamp x) (Some now) (workout_type_id x)
     (workout_name x) (muscle_group_targeted x) (category_type x)
     (description x) (difficulty_level x).

Definition with_created (now : datetime) (x : t) : t :=
  mk (Some now) (last_edited_timestamp x) (workout_type_id x)
     (workout_name x) (muscle_group_targeted x) (category_type x)
     (description x) (difficulty_level x).
End WorkoutType.

Module Exercise.
Record t := mk {
  created_timestamp : option datetime;
  last_edited_timestamp : option datetime;
  exercise_id : option Z;
  workout_type_id : option Z;
  exercise_name : string;
  description : option string;
  equipment_required : option string;
  primary_muscle_group : option string;
  difficulty_level : option string;
  calories_burned_per_minute : option py_float;
  muscle_groups_secondary : option string;
  video_tutorial_link : option string;
  image_url : option string }.

Definition with_key (k : Z) (x : t) : t :=
  mk (created_timestamp x) (last_edited_timestamp x) (Some k)
     (workout_type_id x) (exercise_name x) (description x)
     (equipment_required x) (primary_muscle_group x) (difficulty_level x)
     (calories_burned_per_minute x) (muscle_groups_secondary x)
     (video_tutorial_link x) (image_url x).

Definition touch (now : datetime) (x : t) : t :=
  mk (created_timestamp x) (Some now) (exercise_id x)
     (workout_type_id x) (exercise_name x) (description x)
     (equipment_required x) (primary_muscle_group x) (difficulty_level x)
     (calories_burned_per_minute x) (muscle_groups_secondary x)
     (video_tutorial_link x) (image_url x).

Definition with_created (now : datetime) (x : t) : t :=
  mk (Some now) (last_edited_timestamp x) (exercise_id x)
     (workout_type_id x) (exercise_name x) (description x)
     (equipment_required x) (primary_muscle_group x) (difficulty_level x)
     (calories_burned_per_minute x) (muscle_groups_secondary x)
     (video_tutorial_link x) (image_url x).
End Exercise.

Module WorkoutSession.
Record t := mk {
  created_timestamp : option datetime;
  last_edited_timestamp : option datetime;
  session_id : option Z;
  user_id : option Z;
  workout_date : datetime;
  start_time : option datetime;
  end_time : option datetime;
  total_duration : option Z;
  location : option string;
  perceived_exertion : option Z;
  notes : option string;
  workout_source : option string }.

Definition with_key (k : Z) (x : t) : t :=
  mk (created_timestamp x) (last_edited_timestamp x) (Some k)
     (user_id x) (workout_date x) (start_time x) (end_time x)
     (total_duration x) (location x) (perceived_exertion x) (notes x)
     (workout_source x).

Definition touch (now : datetime) (x : t) : t :=
  mk (created_timestamp x) (Some now) (session_id x)
     (user_id x) (workout_date x) (start_time x) (end_time x)
     (total_duration x) (location x) (perceived_exertion x) (notes x)
     (workout_source x).

Definition with_created (now : datetime) (x : t) : t :=
  mk (Some now) (last_edited_timestamp x) (session_id x)
     (user_id x) (workout_date x) (start_time x) (end_time x)
     (total_duration x) (location x) (perceived_exertion x) (notes x)
     (workout_source x).

Definition set_end_time (v : option datetime) (x : t) : t :=
  mk (created_timestamp x) (last_edited_timestamp x) (session_id x)
     (user_id x) (workout_date x) (start_time x) v
     (total_duration x) (location x) (perceived_exertion x) (notes x)
     (workout_source x).

Definition set_total_duration (v : option Z) (x : t) : t :=
  mk (created_timestamp x) (last_edited_timestamp x) (session_id x)
     (user_id x) (workout_date x) (start_time x) (end_time x)
     v (location x) (perceived_exertion x) (notes x)
     (workout_source x).
End WorkoutSession.

Module ExerciseLog.
Record t := mk {
  created_timestamp : option datetime;
  last_edited_timestamp : option datetime;
  exercise_log_id : option Z;
  session_id : option Z;
  exercise_id : option Z;
  set_number : option Z;
  repetitions : option Z;
  weight : option py_float;
  duration : option Z;
  rest_time : option Z;
  notes : option string;
  difficulty_level : option string }.

Definition with_key (k : Z) (x : t) : t :=
  mk (created_timestamp x) (last_edited_timestamp x) (Some k)
     (session_id x) (exercise_id x) (set_number x) (repetitions x)
     (weight x) (duration x) (rest_time x) (notes x) (difficulty_level x).

Definition touch (now : datetime) (x : t) : t :=
  mk (created_timestamp x) (Some now) (exercise_log_id x)
     (session_id x) (exercise_id x) (set_number x) (repetitions x)
     (weight x) (duration x) (rest_time x) (notes x) (difficulty_level x).

Definition with_created (now : datetime) (x : t) : t :=
  mk (Some now) (last_edited_timestamp x) (exercise_log_id x)
     (session_id x) (exercise_id x) (set_number x) (repetitions x)
     (weight x) (duration x) (rest_time x) (notes x) (difficulty_level x).

Definition set_set_number (v : option Z) (x : t) : t :=
  mk (created_timestamp x) (last_edited_timestamp x) (exercise_log_id x)
     (session_id x) (exercise_id x) v (repetitions x)
     (weight x) (duration x) (rest_time x) (notes x) (difficulty_level x).
End ExerciseLog.

(** [BaseModel]: what the five tables inherit.  [created] and [edited]
    read the two timestamps, [key] the primary key; [keyed] is the row
    the storage hands back for an INSERT, [touched] the effect of
    [onupdate=datetime.utcnow] on an UPDATE, and [created_at] the effect
    of the column default of [created_timestamp] on an INSERT that
    brings none. *)
Class BaseModel (A : Type) := {
  created : A -> option datetime;
  edited : A -> option datetime;
  key : A -> option Z;
  keyed : Z -> A -> A;
  touched : datetime -> A -> A;
  created_at : datetime -> A -> A }.

#[global] Instance User_model : BaseModel User.t :=
  {| created := User.created_timestamp;
     edited := User.last_edited_timestamp;
     key := User.user_id;
     keyed := User.with_key;
     touched := User.touch;
     created_at := User.with_created |}.

#[global] Instance WorkoutType_model : BaseModel WorkoutType.t :=
  {| created := WorkoutType.created_timestamp;
     edited := WorkoutType.last_edited_timestamp;
     key := WorkoutType.workout_type_id;
     keyed := WorkoutType.with_key;
     touched := WorkoutType.touch;
     created_at := WorkoutType.with_created |}.

#[global] Instance Exercise_model : BaseModel Exercise.t :=
  {| created := Exercise.created_timestamp;
     edited := Exercise.last_edited_timestamp;
     key := Exercise.exercise_id;
     keyed := Exercise.with_key;
     touched := Exercise.touch;
     created_at := Exercise.with_created |}.

#[global] Instance WorkoutSession_model : BaseModel WorkoutSession.t :=
  {| created := WorkoutSession.created_timestamp;
     edited := WorkoutSession.last_edited_timestamp;
     key := WorkoutSession.session_id;
     keyed := WorkoutSession.with_key;
     touched := WorkoutSession.touch;
     created_at := WorkoutSession.with_created |}.

#[global] Instance ExerciseLog_model : BaseModel ExerciseLog.t :=
  {| created := ExerciseLog.created_timestamp;
     edited := ExerciseLog.last_edited_timestamp;
     key := ExerciseLog.exercise_log_id;
     keyed := ExerciseLog.with_key;
     touched := ExerciseLog.touch;
     created_at := ExerciseLog.with_created |}.

(** The storage behind an engine: one list of rows per table, in the
    order the rows were inserted, under the table names SQLModel derives
    from the class names. *)
Record Database := mkDatabase {
  user : list User.t;
  workouttype : list WorkoutType.t;
  exercise : list Exercise.t;
  workoutsession : list WorkoutSession.t;
  exerciselog : list ExerciseLog.t }.

Definition with_user (v : list User.t) (d : Database) : Database :=
  mkDatabase v (workouttype d) (exercise d) (workoutsession d) (exerciselog d).
Definition with_workouttype (v : list WorkoutType.t) (d : Database) : Database :=
  mkDatabase (user d) v (exercise d) (workoutsession d) (exerciselog d).
Definition with_exercise (v : list Exercise.t) (d : Database) : Database :=
  mkDatabase (user d) (workouttype d) v (workoutsession d) (exerciselog d).
Definition with_workoutsession (v : list WorkoutSession.t) (d : Database) : Database :=
  mkDatabase (user d) (workouttype d) (exercise d) v (exerciselog d).
Definition with_exerciselog (v : list ExerciseLog.t) (d : Database) : Database :=
  mkDatabase (user d) (workouttype d) (exercise d) (workoutsession d) v.

(** ** Results and exceptions *)

(** [IntegrityError] is what the storage raises for a violated
    constraint, [OperationalError] for a statement it could not carry
    out; [AttributeError] and [TypeError] are Python's. *)
Inductive exception :=
| IntegrityError
| OperationalError
| AttributeError
| TypeError.

Inductive Result (A : Type) :=
| Ok (a : A)
| Raise (e : exception).
Arguments Ok {A} a.
Arguments Raise {A} e.

#[global] Instance Result_ret : MRet Result := fun A a => Ok a.
#[global] Instance Result_bind : MBind Result := fun A B f r =>
  match r with
  | Ok a => f a
  | Raise e => Raise e
  end.

(** ** Constraints of the schema *)

(** The largest key of a table that has any. *)
Definition max_key (keys : list (option Z)) : option Z :=
  foldr (fun k m => match k with
                    | Some a => Some (from_option (Z.max a) a m)
                    | None => m
                    end) None keys.

(** The key an INSERT gives a row that brings none, the way SQLite
    chooses it for an integer primary key: 1 in an empty table, and
    otherwise one more than the largest key, negative keys included.
    The engine has a largest integer, above which it looks for any key
    not in use; the tables here stay below it. *)
Definition next_key (keys : list (option Z)) : Z :=
  from_option (Z.add 1) 1 (max_key keys).

Definition primary_key (pk : option Z) (keys : list (option Z)) : Result Z :=
  match pk with
  | None => Ok (next_key keys)
  | Some k => if bool_decide (Some k ∈ keys) then Raise IntegrityError else Ok k
  end.

(** A column whose annotation is not [Optional] is [NOT NULL]. *)
Definition not_null {A : Type} (v : option A) : Result unit :=
  match v with
  | Some _ => Ok tt
  | None => Raise IntegrityError
  end.

(** [Field(foreign_key=...)] declares a reference: a value that is not
    NULL names a row of the referenced table.  [models.py] declares the
    references and takes the engine from its caller, and it is the engine
    that checks them or does not: one that enforces foreign keys
    ([enforced]) refuses a value that names no row, one that does not
    (SQLite, unless the connection sets [PRAGMA foreign_keys]) stores it
    as it is. *)
Definition foreign_key (enforced : bool) (fk : option Z) (keys : list (option Z))
  : Result unit :=
  if enforced then
    match fk with
    | None => Ok tt
    | Some k => if bool_decide (Some k ∈ keys) then Ok tt else Raise IntegrityError
    end
  else Ok tt.

Definition keys_of {A : Type} `{BaseModel A} (rows : list A) : list (option Z) :=
  key <$> rows.

(** What each table checks of a row, besides its primary key: [NOT NULL]
    on every engine, the references on an engine that enforces them. *)
Definition check_user (x : User.t) (d : Database) : Result unit :=
  Ok tt.

Definition check_workouttype (x : WorkoutType.t) (d : Database) : Result unit :=
  Ok tt.

Definition check_exercise (enforced : bool) (x : Exercise.t) (d : Database)
  : Result unit :=
  foreign_key enforced (Exercise.workout_type_id x) (keys_of (workouttype d)).

Definition check_workoutsession (enforced : bool) (x : WorkoutSession.t)
    (d : Database) : Result unit :=
  not_null (WorkoutSession.user_id x);;
  foreign_key enforced (WorkoutSession.user_id x) (keys_of (user d)).

Definition check_exerciselog (enforced : bool) (x : ExerciseLog.t) (d : Database)
  : Result unit :=
  not_null (ExerciseLog.session_id x);;
  foreign_key enforced (ExerciseLog.session_id x) (keys_of (workoutsession d));;
  not_null (ExerciseLog.exercise_id x);;
  foreign_key enforced (ExerciseLog.exercise_id x) (keys_of (exercise d)).

(** INSERT of a row with every column given: the row is checked, gets
    its key and goes to the end of its table; the stored row is handed
    back.  The defaults of the columns are the session's work, see
    [insert_object]. *)
Definition insert_user (x : User.t) (d : Database) : Result (User.t * Database) :=
  k ← primary_key (key x) (keys_of (user d));
  check_user x d;;
  Ok (keyed k x, with_user (user d ++ [keyed k x]) d).

Definition insert_workouttype (x : WorkoutType.t) (d : Database)
  : Result (WorkoutType.t * Database) :=
  k ← primary_key (key x) (keys_of (workouttype d));
  check_workouttype x d;;
  Ok (keyed k x, with_workouttype (workouttype d ++ [keyed k x]) d).

Definition insert_exercise (enforced : bool) (x : Exercise.t) (d : Database)
  : Result (Exercise.t * Database) :=
  k ← primary_key (key x) (keys_of (exercise d));
  check_exercise enforced x d;;
  Ok (keyed k x, with_exercise (exercise d ++ [keyed k x]) d).

Definition insert_workoutsession (enforced : bool) (x : WorkoutSession.t)
    (d : Database) : Result (WorkoutSession.t * Database) :=
  k ← primary_key (key x) (keys_of (workoutsession d));
  check_workoutsession enforced x d;;
  Ok (keyed k x, with_workoutsession (workoutsession d ++ [keyed k x]) d).

Definition insert_exerciselog (enforced : bool) (x : ExerciseLog.t) (d : Database)
  : Result (ExerciseLog.t * Database) :=
  k ← primary_key (key x) (keys_of (exerciselog d));
  check_exerciselog enforced x d;;
  Ok (keyed k x, with_exerciselog (exerciselog d ++ [keyed k x]) d).

(** UPDATE ... WHERE key = ...: the rows with the key of [x] become [x]. *)
Definition replace_row {A : Type} `{BaseModel A} (x : A) (rows : list A) : list A :=
  (fun row => if bool_decide (key row = key x) then x else row) <$> rows.

Definition update_user (x : User.t) (d : Database) : Result Database :=
  check_user x d;;
  Ok (with_user (replace_row x (user d)) d).

Definition update_workouttype (x : WorkoutType.t) (d : Database) : Result Database :=
  check_workouttype x d;;
  Ok (with_workouttype (replace_row x (workouttype d)) d).

Definition update_exercise (enforced : bool) (x : Exercise.t) (d : Database)
  : Result Database :=
  check_exercise enforced x d;;
  Ok (with_exercise (replace_row x (exercise d)) d).

Definition update_workoutsession (enforced : bool) (x : WorkoutSession.t)
    (d : Database) : Result Database :=
  check_workoutsession enforced x d;;
  Ok (with_workoutsession (replace_row x (workoutsession d)) d).

Definition update_exerciselog (enforced : bool) (x : ExerciseLog.t) (d : Database)
  : Result Database :=
  check_exerciselog enforced x d;;
  Ok (with_exerciselog (replace_row x (exerciselog d)) d).

(** ** Python objects, the session and the world *)

Inductive Entity :=
| AUser (x : User.t)
| AWorkoutType (x : WorkoutType.t)
| AnExercise (x : Exercise.t)
| AWorkoutSession (x : WorkoutSession.t)
| AnExerciseLog (x : ExerciseLog.t).

(** A reference to a Python object: its position in the heap. *)
Abbreviation ref := nat (only parsing).

(** A [Session]: the tables as its open transaction sees them, the
    objects added and not yet inserted ([session.new]), the objects
    whose row the transaction has written or read (the identity map) and
    those of them assigned to since the last flush ([session.dirty]). *)
Record Session := mkSession {
  transaction : Database;
  new : list ref;
  identity_map : list ref;
  dirty : list ref }.

(** The world a function of [models.py] runs in: the committed tables
    behind the engine, the Python heap, the session of the enclosing
    [with] block, how often [datetime.utcnow] was called, how many
    statements went to the engine, and what was printed. *)
Record State := mkState {
  storage : Database;
  heap : list Entity;
  session : Session;
  utcnow_calls : nat;
  statements : nat;
  stdout : list string }.

Definition with_storage (v : Database) (s : State) : State :=
  mkState v (heap s) (session s) (utcnow_calls s) (statements s) (stdout s).
Definition with_heap (v : list Entity) (s : State) : State :=
  mkState (storage s) v (session s) (utcnow_calls s) (statements s) (stdout s).
Definition with_session (v : Session) (s : State) : State :=
  mkState (storage s) (heap s) v (utcnow_calls s) (statements s) (stdout s).
Definition with_utcnow_calls (v : nat) (s : State) : State :=
  mkState (storage s) (heap s) (session s) v (statements s) (stdout s).
Definition with_statements (v : nat) (s : State) : State :=
  mkState (storage s) (heap s) (session s) (utcnow_calls s) v (stdout s).
Definition with_stdout (v : list string) (s : State) : State :=
  mkState (storage s) (heap s) (session s) (utcnow_calls s) (statements s) v.

Definition with_transaction (v : Database) (ss : Session) : Session :=
  mkSession v (new ss) (identity_map ss) (dirty ss).
Definition with_new (v : list ref) (ss : Session) : Session :=
  mkSession (transaction ss) v (identity_map ss) (dirty ss).
Definition with_dirty (v : list ref) (ss : Session) : Session :=
  mkSession (transaction ss) (new ss) (identity_map ss) v.

(** A computation: it reads and writes the world and returns or raises. *)
Definition M (A : Type) : Type := State -> Result A * State.

#[global] Instance M_ret : MRet M := fun A a s => (Ok a, s).
#[global] Instance M_bind : MBind M := fun A B f m s =>
  match m s with
  | (Ok a, s') => f a s'
  | (Raise e, s') => (Raise e, s')
  end.

Definition raise {A : Type} (e : exception) : M A := fun s => (Raise e, s).

Definition lift {A : Type} (r : Result A) : M A := fun s => (r, s).

(** [for x in l: body(x)] *)
Fixpoint for_each {A : Type} (l : list A) (body : A -> M unit) : M unit :=
  match l with
  | [] => mret tt
  | x :: l' => body x;; for_each l' body
  end.

(** [enumerate(l, start)] and [range(a, b)] *)
Definition enumerate {A : Type} (l : list A) (start : Z) : list (Z * A) :=
  zip (seqZ start (Z.of_nat (length l))) l.

Definition range (a b : Z) : list Z := seqZ a (b - a).

Section Models.

(** The environment: the reading the [n]-th call of [datetime.utcnow]
    gets, and the engine the caller passes: whether it fails the [n]-th
    statement it is sent, and whether it enforces foreign keys. *)
Variable utc : nat -> datetime.
Variable fails : nat -> bool.
Variable foreign_keys : bool.

Definition utcnow : M datetime := fun s =>
  (Ok (utc (utcnow_calls s)), with_utcnow_calls (S (utcnow_calls s)) s).

Definition execute : M unit := fun s =>
  (if fails (statements s) then Raise OperationalError else Ok tt,
   with_statements (S (statements s)) s).

Definition print (line : string) : M unit := fun s =>
  (Ok tt, with_stdout (stdout s ++ [line]) s).

(** *** Objects *)

Definition alloc (o : Entity) : M ref := fun s =>
  (Ok (length (heap s)), with_heap (heap s ++ [o]) s).

Definition deref (r : ref) : M Entity := fun s =>
  match heap s !! r with
  | Some o => (Ok o, s)
  | None => (Raise AttributeError, s)
  end.

Definition write (r : ref) (o : Entity) : M unit := fun s =>
  (Ok tt, with_heap (<[r := o]> (heap s)) s).

(** [BaseModel]'s two [default_factory] fields come first in every
    class, so a constructor settles [created_timestamp], then
    [last_edited_timestamp], then the defaults of its own class.  For a
    field with a [default_factory] it takes what the caller passes,
    [None] included (a [table=True] model is not validated), and reads
    the clock when the caller passes nothing. *)
Definition default_factory (passed : option (option datetime)) : M (option datetime) :=
  match passed with
  | Some v => mret v
  | None => now ← utcnow; mret (Some now)
  end.


Definition WorkoutType_init
    (created_timestamp last_edited_timestamp : option (option datetime))
    (workout_name muscle_group_targeted : string)
    (category_type description difficulty_level : option string) : M ref :=
  c ← default_factory created_timestamp; e ← default_factory last_edited_timestamp;
  alloc (AWorkoutType (WorkoutType.mk c e None workout_name
                         muscle_group_targeted category_type description
                         difficulty_level)).


(** [workout_date] has a [default_factory] of its own, used when the
    caller passes none. *)
Definition WorkoutSession_init
    (created_timestamp last_edited_timestamp : option (option datetime))
    (user_id : option Z) (workout_date : option datetime)
    (start_time end_time : option datetime) (total_duration : option Z)
    (location : option string) (perceived_exertion : option Z)
    (notes workout_source : option string) : M ref :=
  c ← default_factory created_timestamp; e ← default_factory last_edited_timestamp;
  d ← match workout_date with
      | Some d => mret d
      | None => utcnow
      end;
  alloc (AWorkoutSession (WorkoutSession.mk c e None user_id d
                            start_time end_time total_duration location
                            perceived_exertion notes workout_source)).

Definition ExerciseLog_init
    (created_timestamp last_edited_timestamp : option (option datetime))
    (session_id exercise_id : option Z)
    (set_number repetitions : option Z) (weight : option py_float)
    (duration rest_time : option Z) (notes difficulty_level : option string) : M ref :=
  c ← default_factory created_timestamp; e ← default_factory last_edited_timestamp;
  alloc (AnExerciseLog (ExerciseLog.mk c e None session_id
                          exercise_id set_number repetitions weight duration
                          rest_time notes difficulty_level)).

(** Reading [workout_session.attr]: the object behind the reference. *)
Definition the_WorkoutSession (r : ref) : M WorkoutSession.t :=
  o ← deref r;
  match o with
  | AWorkoutSession x => mret x
  | _ => raise AttributeError
  end.

(** *** The session *)

Definition get_session : M Session := fun s => (Ok (session s), s).
Definition put_session (ss : Session) : M unit := fun s => (Ok tt, with_session ss s).

(** [session.add(obj)] *)
Definition session_add (r : ref) : M unit :=
  ss ← get_session;
  if bool_decide (r ∈ new ss ++ identity_map ss) then mret tt
  else put_session (with_new (new ss ++ [r]) ss).

(** [workout_session.attr = v]: the object changes for everyone who
    holds it, and a session that has it in its identity map notes it
    as dirty. *)
Definition assign_WorkoutSession (r : ref)
    (f : WorkoutSession.t -> WorkoutSession.t) : M unit :=
  x ← the_WorkoutSession r;
  write r (AWorkoutSession (f x));;
  ss ← get_session;
  if bool_decide (r ∈ identity_map ss) && negb (bool_decide (r ∈ dirty ss))
  then put_session (with_dirty (dirty ss ++ [r]) ss)
  else mret tt.

Definition put_transaction (d : Database) : M unit :=
  ss ← get_session; put_session (with_transaction d ss).

(** The default of the column [created_timestamp], which SQLModel takes
    from the [default_factory] of the field: an object that carries no
    [created_timestamp] when it is inserted gets a reading of the clock.
    [last_edited_timestamp] is declared with [sa_column=Column(onupdate=...)]
    and has no default: what the object carries is stored, NULL too. *)
Definition default_created {A : Type} `{BaseModel A} (x : A) : M A :=
  match created x with
  | Some _ => mret x
  | None => now ← utcnow; mret (created_at now x)
  end.

Definition column_defaults (o : Entity) : M Entity :=
  match o with
  | AUser x => x' ← default_created x; mret (AUser x')
  | AWorkoutType x => x' ← default_created x; mret (AWorkoutType x')
  | AnExercise x => x' ← default_created x; mret (AnExercise x')
  | AWorkoutSession x => x' ← default_created x; mret (AWorkoutSession x')
  | AnExerciseLog x => x' ← default_created x; mret (AnExerciseLog x')
  end.

(** One object of [session.new] goes to the storage: its columns get
    their defaults, then an INSERT in the open transaction, after which
    the object carries its key. *)
Definition insert_object (r : ref) : M unit :=
  o ← deref r;
  o ← column_defaults o;
  execute;;
  ss ← get_session;
  match o with
  | AUser x =>
      '(row, d) ← lift (insert_user x (transaction ss));
      put_transaction d;; write r (AUser row)
  | AWorkoutType x =>
      '(row, d) ← lift (insert_workouttype x (transaction ss));
      put_transaction d;; write r (AWorkoutType row)
  | AnExercise x =>
      '(row, d) ← lift (insert_exercise foreign_keys x (transaction ss));
      put_transaction d;; write r (AnExercise row)
  | AWorkoutSession x =>
      '(row, d) ← lift (insert_workoutsession foreign_keys x (transaction ss));
      put_transaction d;; write r (AWorkoutSession row)
  | AnExerciseLog x =>
      '(row, d) ← lift (insert_exerciselog foreign_keys x (transaction ss));
      put_transaction d;; write r (AnExerciseLog row)
  end.

(** One dirty object goes to the storage: an UPDATE of its row, which
    [onupdate=datetime.utcnow] stamps with the time of the statement. *)
Definition update_object (r : ref) : M unit :=
  o ← deref r;
  now ← utcnow;
  execute;;
  ss ← get_session;
  match o with
  | AUser x =>
      d ← lift (update_user (touched now x) (transaction ss));
      put_transaction d;; write r (AUser (touched now x))
  | AWorkoutType x =>
      d ← lift (update_workouttype (touched now x) (transaction ss));
      put_transaction d;; write r (AWorkoutType (touched now x))
  | AnExercise x =>
      d ← lift (update_exercise foreign_keys (touched now x) (transaction ss));
      put_transaction d;; write r (AnExercise (touched now x))
  | AWorkoutSession x =>
      d ← lift (update_workoutsession foreign_keys (touched now x) (transaction ss));
      put_transaction d;; write r (AWorkoutSession (touched now x))
  | AnExerciseLog x =>
      d ← lift (update_exerciselog foreign_keys (touched now x) (transaction ss));
      put_transaction d;; write r (AnExerciseLog (touched now x))
  end.

(** [session.flush()]: the dirty objects are updated, the new ones
    inserted in the order they were added; what was new is now in the
    identity map. *)
Definition session_flush : M unit :=
  ss ← get_session;
  for_each (dirty ss) update_object;;
  for_each (new ss) insert_object;;
  ss' ← get_session;
  put_session (mkSession (transaction ss') [] (identity_map ss ++ new ss) []).

(** [session.commit()]: a flush, then COMMIT makes the transaction the
    storage. *)
Definition publish : M unit := fun s =>
  (Ok tt, with_storage (transaction (session s)) s).

Definition session_commit : M unit :=
  session_flush;;
  execute;;
  publish.

(** [session.query(Exercise).limit(n).all()]: the session flushes
    before it queries, then reads the first [n] rows of the table. *)
Definition query_Exercise_limit (n : nat) : M (list Exercise.t) :=
  session_flush;;
  execute;;
  ss ← get_session;
  mret (take n (exercise (transaction ss))).

(** [with Session(engine) as session: body]: the session starts on the
    committed tables and is closed on the way out, by return or by
    exception, which rolls back what was not committed. *)
Definition open_session (d : Database) : Session := mkSession d [] [] [].

Definition with_Session {A : Type} (body : M A) : M A := fun s =>
  let '(r, s') := body (with_session (open_session (storage s)) s) in
  (r, with_session (open_session (storage s')) s').

(** *** The two functions *)

(** [delta.total_seconds()] of a difference of two datetimes, and
    [int(x)] of a float, which drops the fraction (towards zero). *)
Definition total_seconds (delta : Z) : py_float := (delta # 1000000)%Q.

Definition int (x : py_float) : Z := Z.quot (Qnum x) (Z.pos (Qden x)).

Definition query_workout_type_table : M unit :=
  with_Session (
    new_workout ← WorkoutType_init None None "Strength Training" "Full Body"
                    (Some "Weightlifting"%string)
                    (Some "A high-intensity workout for muscle building."%string)
                    None;
    session_add new_workout;;
    session_commit).

Definition create_workout_session (user_id : Z) : M unit :=
  with_Session (
    exercises ← query_Exercise_limit 3;
    match exercises with
    | [] => print "No exercises found. Please add exercises first."
    | _ =>
      workout_date ← utcnow;
      start_time ← utcnow;
      workout_session ← WorkoutSession_init None None
                          (Some user_id) (Some workout_date)
                          (Some start_time) None None (Some "Home Gym"%string)
                          (Some 7) (Some "Felt strong today"%string) None;
      session_add workout_session;;
      session_flush;;
      for_each (enumerate exercises 1) (fun '(i, exercise) =>
        for_each (range 1 4) (fun set_num =>
          ws ← the_WorkoutSession workout_session;
          exercise_log ← ExerciseLog_init None None
            (WorkoutSession.session_id ws)
            (Exercise.exercise_id exercise)
            (Some set_num)
            (Some (if bool_decide (set_num < 3) then 10 else 8))
            (Some (if bool_decide (Exercise.primary_muscle_group exercise
                                   ∈ [Some "Chest"; Some "Back"; Some "Legs"]%string)
                   then 50%Q else 25%Q))
            None (Some 60) None (Some "Medium"%string);
          session_add exercise_log));;
      now ← utcnow;
      assign_WorkoutSession workout_session (WorkoutSession.set_end_time (Some now));;
      ws ← the_WorkoutSession workout_session;
      delta ← match WorkoutSession.end_time ws, WorkoutSession.start_time ws with
              | Some e, Some b => mret (e - b)
              | _, _ => raise TypeError
              end;
      assign_WorkoutSession workout_session
        (WorkoutSession.set_total_duration
           (Some (int (total_seconds delta / inject_Z 60)%Q)));;
      session_commit
    end).

End Models.


(** ** What the composite operation builds *)

Section Built.

Variable utc : nat -> datetime.

(** The [WorkoutSession] object as its constructor leaves it, when the
    clock has been read [n] times before the call. *)
Definition session_object (user_id : Z) (n : nat) : WorkoutSession.t :=
  WorkoutSession.mk (Some (utc (2 + n))) (Some (utc (3 + n))) None (Some user_id)
    (utc n) (Some (utc (1 + n))) None None (Some "Home Gym"%string) (Some 7)
    (Some "Felt strong today"%string) None.

(** The same object once the session has written it for the last time:
    with its key, the end of the workout read after [m] exercises were
    logged, the duration, and the time of the UPDATE. *)
Definition session_row (user_id : Z) (k : Z) (n m : nat) : WorkoutSession.t :=
  WorkoutSession.mk (Some (utc (2 + n))) (Some (utc (5 + (m * 6 + n)))) (Some k)
    (Some user_id) (utc n) (Some (utc (1 + n))) (Some (utc (4 + (m * 6 + n))))
    (Some (int (total_seconds (utc (4 + (m * 6 + n)) - utc (1 + n)) / inject_Z 60)%Q))
    (Some "Home Gym"%string) (Some 7) (Some "Felt strong today"%string) None.

(** One [ExerciseLog] object as its constructor leaves it. *)
Definition log_object (sid : option Z) (e : Exercise.t) (set_num : Z) (n : nat)
  : ExerciseLog.t :=
  ExerciseLog.mk (Some (utc n)) (Some (utc (1 + n))) None sid
    (Exercise.exercise_id e) (Some set_num)
    (Some (if bool_decide (set_num < 3) then 10 else 8))
    (Some (if bool_decide (Exercise.primary_muscle_group e
                           ∈ [Some "Chest"; Some "Back"; Some "Legs"]%string)
           then 50%Q else 25%Q))
    None (Some 60) None (Some "Medium"%string).

(** The objects the two loops build, in the order they are added. *)
Fixpoint log_objects (sid : option Z) (exs : list Exercise.t) (n : nat)
  : list ExerciseLog.t :=
  match exs with
  | [] => []
  | e :: exs' =>
      log_object sid e 1 n :: log_object sid e 2 (2 + n)
        :: log_object sid e 3 (4 + n) :: log_objects sid exs' (6 + n)
  end.

End Built.

(** ** Properties of computations and of the world *)

(** A computation is [quiet] when it never changes the committed
    tables.  Everything is, except [publish]. *)
Definition quiet {A : Type} (m : M A) : Prop :=
  forall s, storage (m s).2 = storage s.

(** The clock never goes back. *)
Definition monotone (utc : nat -> datetime) : Prop :=
  forall i j, (i <= j)%nat -> utc i <= utc j.

(** An object or row is [stamped] by reading [n] of the clock when both
    timestamps are set, in order, and not later than that reading. *)
Definition stamped {A : Type} `{BaseModel A} (utc : nat -> datetime) (n : nat)
    (x : A) : Prop :=
  exists c e, created x = Some c /\ edited x = Some e /\ c <= e /\ e <= utc n.


(** ** A small gym, for the examples *)

Definition boot (d : Database) : State := mkState d [] (open_session d) 0 0 [].

(** A clock that starts on 2025-01-01 and gains forty seconds a reading,
    and an engine that carries out every statement. *)
Definition steady_clock (n : nat) : datetime :=
  1735689600000000 + 40000000 * Z.of_nat n.

Definition reliable (n : nat) : bool := false.

(** The two kinds of engine: a [strict] one enforces the foreign keys, a
    [lenient] one (SQLite as a connection finds it) does not. *)
Definition strict : bool := true.
Definition lenient : bool := false.

(** The numbers every engine stores in an [Integer] column, the type an
    [int] field gets: 32 bits, signed.  Python's integers have no bound;
    what a driver does with a parameter it cannot bind is not modelled,
    and what is said of a row that is stored is said of such numbers. *)
Definition storable (z : Z) : Prop := - 2 ^ 31 <= z < 2 ^ 31.

(** A clock that is set back half a minute between any two readings. *)
Definition rewinding_clock (n : nat) : datetime :=
  1735689600000000 - 30000000 * Z.of_nat n.

Definition gym_exercise (k : Z) (name : string) (group : option string) : Exercise.t :=
  Exercise.mk (Some 1735600000000000) (Some 1735600000000000) (Some k) (Some 1)
    name None None group None None None None None.

Definition gym : Database :=
  mkDatabase
    [User.mk (Some 1735600000000000) (Some 1735600000000000) (Some 1)
       "ada" "ada@example.org" "x" None None]
    [WorkoutType.mk (Some 1735600000000000) (Some 1735600000000000) (Some 1)
       "Strength Training" "Full Body" None None None]
    [gym_exercise 1 "Squat" (Some "Legs"%string);
     gym_exercise 2 "Curl" (Some "Biceps"%string);
     gym_exercise 3 "Plank" None;
     gym_exercise 4 "Bench Press" (Some "Chest"%string)]
    [] [].

(** Rows to try the tables with: an exercise of a workout type, and a
    set of ten repetitions of an exercise in a session; both come with
    their timestamps and without a key. *)
Definition burpee (workout_type_id : option Z) : Exercise.t :=
  Exercise.mk (Some 1735689600000000) (Some 1735689600000000) None workout_type_id
    "Burpee" None None None None None None None None.

Definition a_set (session_id exercise_id set_number : option Z) : ExerciseLog.t :=
  ExerciseLog.mk (Some 1735689600000000) (Some 1735689600000000) None session_id
    exercise_id set_number (Some 10) None None None None None.

(** The same gym before any exercise was entered. *)
Definition empty_gym : Database := with_exercise [] gym.

(** The gym after one workout of user 1. *)
Definition gym_after : Database :=
  storage (create_workout_session steady_clock reliable lenient 1 (boot gym)).2.

(** ** Consistency of the tables *)

(** Every row of a table carries a key and no two rows carry the same. *)
Definition keys_unique {A : Type} `{BaseModel A} (rows : list A) : Prop :=
  NoDup (keys_of rows) /\ Forall is_Some (keys_of rows).

(** What the declarations ask of the references of a row: an optional
    foreign key is NULL or names a row, a required one names a row. *)
Definition exercise_ok (d : Database) (x : Exercise.t) : Prop :=
  Exercise.workout_type_id x = None \/
  Exercise.workout_type_id x ∈ keys_of (workouttype d).

Definition workoutsession_ok (d : Database) (x : WorkoutSession.t) : Prop :=
  is_Some (WorkoutSession.user_id x) /\
  WorkoutSession.user_id x ∈ keys_of (user d).

Definition exerciselog_ok (d : Database) (x : ExerciseLog.t) : Prop :=
  is_Some (ExerciseLog.session_id x) /\
  ExerciseLog.session_id x ∈ keys_of (workoutsession d) /\
  is_Some (ExerciseLog.exercise_id x) /\
  ExerciseLog.exercise_id x ∈ keys_of (exercise d).

(** Tables are [consistent] when the keys of each are unique and every
    reference is in order. *)
Record consistent (d : Database) : Prop := mkConsistent {
  user_keys : keys_unique (user d);
  workouttype_keys : keys_unique (workouttype d);
  exercise_keys : keys_unique (exercise d);
  workoutsession_keys : keys_unique (workoutsession d);
  exerciselog_keys : keys_unique (exerciselog d);
  exercise_refs : Forall (exercise_ok d) (exercise d);
  workoutsession_refs : Forall (workoutsession_ok d) (workoutsession d);
  exerciselog_refs : Forall (exerciselog_ok d) (exerciselog d) }.

(** The tables [d'] know every key the tables [d] know. *)
Definition grows (d d' : Database) : Prop :=
  keys_of (user d) ⊆ keys_of (user d') /\
  keys_of (workouttype d) ⊆ keys_of (workouttype d') /\
  keys_of (exercise d) ⊆ keys_of (exercise d') /\
  keys_of (workoutsession d) ⊆ keys_of (workoutsession d').

(** A computation [keeps] a property of the world that holds after it
    whenever it held before, whether it returns or raises. *)
Definition keeps {A : Type} (I : State -> Prop) (m : M A) : Prop :=
  forall s, I s -> I (m s).2.

(** ** What [query_workout_type_table] builds *)

(** The [WorkoutType] row of the example, with its key, when the clock
    has been read [n] times before the call. *)
Definition workout_row (utc : nat -> datetime) (k : Z) (n : nat) : WorkoutType.t :=
  WorkoutType.mk (Some (utc n)) (Some (utc (S n))) (Some k) "Strength Training"
    "Full Body" (Some "Weightlifting"%string)
    (Some "A high-intensity workout for muscle building."%string) None.

(** ** Output *)

(** What has been printed so far. *)
Definition printed (out : list string) (s : State) : Prop := stdout s = out.

(** ** Objects and their rows *)


(** * Running computations *)

#[local] Arguments next_key : simpl never.
#[local] Arguments int : simpl never.
#[local] Arguments total_seconds : simpl never.

Section Run.

Variable utc : nat -> datetime.
Variable fails : nat -> bool.
Variable foreign_keys : bool.

Lemma run_bind {A B : Type} (m : M A) (f : A -> M B) (s : State) :
  (m ≫= f) s =
  match m s with
  | (Ok a, s') => f a s'
  | (Raise e, s') => (Raise e, s')
  end.
Proof. reflexivity. Qed.

Lemma run_bind_Ok {A B : Type} (m : M A) (f : A -> M B) (s s' : State) (a : A) :
  m s = (Ok a, s') -> (m ≫= f) s = f a s'.
Proof. intros E. rewrite run_bind, E. reflexivity. Qed.

(** ** What leaves the storage alone *)

(** Of all the steps of a session only [publish], the last one of a
    commit, writes the committed tables. *)

Lemma quiet_ret {A : Type} (a : A) : quiet (mret a : M A).
Proof. intros s. reflexivity. Qed.

Lemma quiet_raise {A : Type} e : quiet (raise e : M A).
Proof. intros s. reflexivity. Qed.

Lemma quiet_lift {A : Type} (r : Result A) : quiet (lift r).
Proof. intros s. reflexivity. Qed.

Lemma quiet_bind {A B : Type} (m : M A) (f : A -> M B) :
  quiet m -> (forall a, quiet (f a)) -> quiet (m ≫= f).
Proof.
  intros Hm Hf s. rewrite run_bind. specialize (Hm s).
  destruct (m s) as [[a|e] s1]; simpl in *; [|done].
  rewrite Hf. done.
Qed.

Lemma quiet_for_each {A : Type} (l : list A) (body : A -> M unit) :
  (forall x, quiet (body x)) -> quiet (for_each l body).
Proof.
  intros Hb. induction l as [|x l IH]; simpl.
  - apply quiet_ret.
  - apply quiet_bind; auto.
Qed.

Lemma quiet_utcnow : quiet (utcnow utc).
Proof. intros s. reflexivity. Qed.

Lemma quiet_execute : quiet (execute fails).
Proof. intros s. reflexivity. Qed.

Lemma quiet_print line : quiet (print line).
Proof. intros s. reflexivity. Qed.

Lemma quiet_alloc o : quiet (alloc o).
Proof. intros s. reflexivity. Qed.

Lemma quiet_deref r : quiet (deref r).
Proof. intros s. unfold deref. destruct (heap s !! r); reflexivity. Qed.

Lemma quiet_write r o : quiet (write r o).
Proof. intros s. reflexivity. Qed.

Lemma quiet_get_session : quiet get_session.
Proof. intros s. reflexivity. Qed.

Lemma quiet_put_session ss : quiet (put_session ss).
Proof. intros s. reflexivity. Qed.

Create HintDb quiet.
#[local] Hint Resolve quiet_ret quiet_raise quiet_lift quiet_utcnow quiet_execute
  quiet_print quiet_alloc quiet_deref quiet_write quiet_get_session
  quiet_put_session : quiet.
#[local] Hint Extern 2 (quiet (_ ≫= _)) => apply quiet_bind; [|intros] : quiet.
#[local] Hint Extern 2 (quiet (for_each _ _)) => apply quiet_for_each; intros : quiet.
#[local] Hint Extern 3 (quiet (match ?x with _ => _ end)) => destruct x : quiet.

Ltac quiet := unfold put_transaction; auto 30 with quiet.

Lemma quiet_the_WorkoutSession r : quiet (the_WorkoutSession r).
Proof. unfold the_WorkoutSession. quiet. Qed.

Lemma quiet_session_add r : quiet (session_add r).
Proof. unfold session_add. quiet. Qed.

Lemma quiet_assign_WorkoutSession r f : quiet (assign_WorkoutSession r f).
Proof.
  unfold assign_WorkoutSession.
  apply quiet_bind; [apply quiet_the_WorkoutSession|intros].
  quiet.
Qed.

Lemma quiet_default_factory passed : quiet (default_factory utc passed).
Proof. unfold default_factory. quiet. Qed.

Lemma quiet_default_created {A : Type} `{BaseModel A} (x : A) :
  quiet (default_created utc x).
Proof. unfold default_created. quiet. Qed.

Lemma quiet_column_defaults o : quiet (column_defaults utc o).
Proof.
  unfold column_defaults.
  destruct o; (apply quiet_bind; [apply quiet_default_created|intros; apply quiet_ret]).
Qed.

Lemma quiet_insert_object r : quiet (insert_object utc fails foreign_keys r).
Proof.
  unfold insert_object. apply quiet_bind; [apply quiet_deref|intros o].
  apply quiet_bind; [apply quiet_column_defaults|intros o'].
  quiet.
Qed.

Lemma quiet_update_object r : quiet (update_object utc fails foreign_keys r).
Proof. unfold update_object. quiet. Qed.

Lemma quiet_session_flush : quiet (session_flush utc fails foreign_keys).
Proof.
  unfold session_flush.
  pose proof quiet_insert_object. pose proof quiet_update_object. quiet.
Qed.

Lemma quiet_query_Exercise_limit n : quiet (query_Exercise_limit utc fails foreign_keys n).
Proof. unfold query_Exercise_limit. pose proof quiet_session_flush. quiet. Qed.

Lemma quiet_WorkoutSession_init ct et a b c d e f g h i :
  quiet (WorkoutSession_init utc ct et a b c d e f g h i).
Proof.
  unfold WorkoutSession_init. pose proof quiet_default_factory. quiet.
Qed.

Lemma quiet_WorkoutType_init ct et a b c d e :
  quiet (WorkoutType_init utc ct et a b c d e).
Proof. unfold WorkoutType_init. pose proof quiet_default_factory. quiet. Qed.

Lemma quiet_ExerciseLog_init ct et a b c d e f g h i :
  quiet (ExerciseLog_init utc ct et a b c d e f g h i).
Proof. unfold ExerciseLog_init. pose proof quiet_default_factory. quiet. Qed.

(** A [with] block whose body never commits is rolled back. *)
Lemma rollback {A : Type} (body : M A) : quiet body -> quiet (with_Session body).
Proof.
  intros Hq s. unfold with_Session.
  specialize (Hq (with_session (open_session (storage s)) s)).
  destruct (body _) as [r s']. exact Hq.
Qed.

End Run.

Section Steps.

Variable utc : nat -> datetime.
Variable fails : nat -> bool.
Variable foreign_keys : bool.

(** ** Keys *)

Lemma max_key_above (keys : list (option Z)) (k : Z) :
  Some k ∈ keys -> exists m, max_key keys = Some m /\ k <= m.
Proof.
  induction keys as [|[k'|] keys IH]; cbn [max_key foldr].
  - intros H. inversion H.
  - intros H. apply elem_of_cons in H as [H|H].
    + injection H as ->. eexists. split; [reflexivity|].
      destruct (foldr _ _ _); cbn; lia.
    + destruct (IH H) as (m & Hm & Hk). fold (max_key keys). rewrite Hm.
      eexists. split; [reflexivity|]. cbn. lia.
  - intros H. apply elem_of_cons in H as [H|H]; [done|auto].
Qed.

Lemma max_key_snoc (keys : list (option Z)) (a : Z) :
  max_key (keys ++ [Some a]) = Some (from_option (Z.max a) a (max_key keys)).
Proof.
  unfold max_key. rewrite foldr_app. cbn [foldr from_option].
  induction keys as [|[k|] keys IH]; cbn [foldr]; [done| |done].
  rewrite IH. destruct (foldr _ None keys); cbn; f_equal; lia.
Qed.

Lemma next_key_above (keys : list (option Z)) (k : Z) :
  Some k ∈ keys -> k < next_key keys.
Proof.
  intros H. apply max_key_above in H as (m & Hm & Hk).
  unfold next_key. rewrite Hm. cbn. lia.
Qed.

Lemma next_key_snoc (keys : list (option Z)) :
  next_key (keys ++ [Some (next_key keys)]) = 1 + next_key keys.
Proof.
  unfold next_key. rewrite max_key_snoc.
  destruct (max_key keys); cbn; lia.
Qed.

Lemma next_key_fresh (keys : list (option Z)) : Some (next_key keys) ∉ keys.
Proof. intros H. apply next_key_above in H. lia. Qed.

Lemma replace_row_fresh {A : Type} `{BaseModel A} (x : A) (rows : list A) :
  key x ∉ keys_of rows -> replace_row x rows = rows.
Proof.
  unfold replace_row, keys_of. induction rows as [|row rows IH]; [done|].
  rewrite !fmap_cons. intros Hn. apply not_elem_of_cons in Hn as [Hne Hn].
  rewrite bool_decide_eq_false_2 by congruence. rewrite IH; done.
Qed.

Lemma replace_row_last {A : Type} `{BaseModel A} (x y : A) (rows : list A) :
  key x ∉ keys_of rows -> key y = key x ->
  replace_row x (rows ++ [y]) = rows ++ [x].
Proof.
  intros Hn Hk. pose proof (replace_row_fresh x rows Hn) as E.
  unfold replace_row in *. rewrite fmap_app, E.
  simpl. rewrite bool_decide_eq_true_2; done.
Qed.

(** ** The heap *)

Lemma lookup_end {A : Type} (l : list A) (x : A) l' :
  (l ++ x :: l') !! length l = Some x.
Proof. by apply list_lookup_middle. Qed.

Lemma insert_end {A : Type} (l : list A) (x y : A) l' :
  <[length l := y]> (l ++ x :: l') = l ++ y :: l'.
Proof.
  replace (length l) with (length l + 0)%nat by lia.
  by rewrite insert_app_r.
Qed.

Lemma length_not_in (h : list Entity) (refs : list ref) :
  Forall (fun r => (r < length h)%nat) refs -> length h ∉ refs.
Proof.
  intros Hall Hin. rewrite Forall_forall in Hall.
  apply Hall in Hin. lia.
Qed.

(** ** Single steps *)

Lemma run_utcnow db h ss n k out :
  utcnow utc (mkState db h ss n k out) = (Ok (utc n), mkState db h ss (S n) k out).
Proof. reflexivity. Qed.

Lemma run_execute db h ss n k out :
  execute fails (mkState db h ss n k out) =
  (if fails k then Raise OperationalError else Ok tt, mkState db h ss n (S k) out).
Proof. reflexivity. Qed.

Lemma run_query_Exercise_limit db h tx n k out :
  query_Exercise_limit utc fails foreign_keys 3 (mkState db h (mkSession tx [] [] []) n k out) =
  (if fails k then Raise OperationalError else Ok (take 3 (exercise tx)),
   mkState db h (mkSession tx [] [] []) n (S k) out).
Proof.
  unfold query_Exercise_limit, session_flush. cbv [mbind M_bind]. cbn.
  destruct (fails k); reflexivity.
Qed.

Lemma run_WorkoutSession_init uid wd st loc pe notes db h ss n k out :
  WorkoutSession_init utc None None (Some uid) (Some wd) (Some st) None None loc pe
    notes None (mkState db h ss n k out) =
  (Ok (length h),
   mkState db
     (h ++ [AWorkoutSession
              (WorkoutSession.mk (Some (utc n)) (Some (utc (S n))) None (Some uid)
                 wd (Some st) None None loc pe notes None)])
     ss (S (S n)) k out).
Proof. reflexivity. Qed.

Lemma run_with_Session {A : Type} (body : M A) db h ss n k out :
  with_Session body (mkState db h ss n k out) =
  let '(r, s') := body (mkState db h (mkSession db [] [] []) n k out) in
  (r, with_session (open_session (storage s')) s').
Proof. reflexivity. Qed.

Lemma run_session_add r db h tx nw idm dt n k out :
  r ∉ nw ++ idm ->
  session_add r (mkState db h (mkSession tx nw idm dt) n k out) =
  (Ok tt, mkState db h (mkSession tx (nw ++ [r]) idm dt) n k out).
Proof.
  intros Hr. unfold session_add. cbv [mbind M_bind]. cbn.
  rewrite bool_decide_eq_false_2 by done. reflexivity.
Qed.

Lemma run_the_WorkoutSession r x db h ss n k out :
  h !! r = Some (AWorkoutSession x) ->
  the_WorkoutSession r (mkState db h ss n k out) = (Ok x, mkState db h ss n k out).
Proof.
  intros Hr. unfold the_WorkoutSession, deref. cbv [mbind M_bind]. cbn.
  rewrite Hr. reflexivity.
Qed.

Lemma run_assign_WorkoutSession r x f db h tx nw idm dt n k out :
  h !! r = Some (AWorkoutSession x) ->
  r ∈ idm ->
  assign_WorkoutSession r f (mkState db h (mkSession tx nw idm dt) n k out) =
  (Ok tt,
   mkState db (<[r := AWorkoutSession (f x)]> h)
     (mkSession tx nw idm (if bool_decide (r ∈ dt) then dt else dt ++ [r]))
     n k out).
Proof.
  intros Hr Hi. unfold assign_WorkoutSession.
  rewrite (run_bind_Ok _ _ _ _ _ (run_the_WorkoutSession _ _ _ _ _ _ _ _ Hr)).
  cbv [mbind M_bind]. cbn.
  rewrite (bool_decide_eq_true_2 _ Hi).
  destruct (bool_decide (r ∈ dt)); reflexivity.
Qed.

Lemma run_insert_WorkoutSession r x db h tx nw idm dt n k out :
  h !! r = Some (AWorkoutSession x) ->
  is_Some (WorkoutSession.created_timestamp x) ->
  insert_object utc fails foreign_keys r (mkState db h (mkSession tx nw idm dt) n k out) =
  if fails k
  then (Raise OperationalError, mkState db h (mkSession tx nw idm dt) n (S k) out)
  else match insert_workoutsession foreign_keys x tx with
       | Ok (row, d) =>
           (Ok tt, mkState db (<[r := AWorkoutSession row]> h)
                     (mkSession d nw idm dt) n (S k) out)
       | Raise e => (Raise e, mkState db h (mkSession tx nw idm dt) n (S k) out)
       end.
Proof.
  intros Hr [c Hc]. unfold insert_object, deref, column_defaults, default_created.
  cbv [mbind M_bind lift]. cbn. rewrite Hr. cbn. rewrite Hc. cbn.
  destruct (fails k); [reflexivity|]. cbn.
  destruct (insert_workoutsession foreign_keys x tx) as [[row d]|e]; reflexivity.
Qed.

Lemma run_insert_ExerciseLog r x db h tx nw idm dt n k out :
  h !! r = Some (AnExerciseLog x) ->
  is_Some (ExerciseLog.created_timestamp x) ->
  insert_object utc fails foreign_keys r (mkState db h (mkSession tx nw idm dt) n k out) =
  if fails k
  then (Raise OperationalError, mkState db h (mkSession tx nw idm dt) n (S k) out)
  else match insert_exerciselog foreign_keys x tx with
       | Ok (row, d) =>
           (Ok tt, mkState db (<[r := AnExerciseLog row]> h)
                     (mkSession d nw idm dt) n (S k) out)
       | Raise e => (Raise e, mkState db h (mkSession tx nw idm dt) n (S k) out)
       end.
Proof.
  intros Hr [c Hc]. unfold insert_object, deref, column_defaults, default_created.
  cbv [mbind M_bind lift]. cbn. rewrite Hr. cbn. rewrite Hc. cbn.
  destruct (fails k); [reflexivity|]. cbn.
  destruct (insert_exerciselog foreign_keys x tx) as [[row d]|e]; reflexivity.
Qed.

Lemma run_update_WorkoutSession r x db h tx nw idm dt n k out :
  h !! r = Some (AWorkoutSession x) ->
  update_object utc fails foreign_keys r (mkState db h (mkSession tx nw idm dt) n k out) =
  if fails k
  then (Raise OperationalError, mkState db h (mkSession tx nw idm dt) (S n) (S k) out)
  else match update_workoutsession foreign_keys (touched (utc n) x) tx with
       | Ok d =>
           (Ok tt, mkState db (<[r := AWorkoutSession (touched (utc n) x)]> h)
                     (mkSession d nw idm dt) (S n) (S k) out)
       | Raise e => (Raise e, mkState db h (mkSession tx nw idm dt) (S n) (S k) out)
       end.
Proof.
  intros Hr. unfold update_object, deref. cbv [mbind M_bind lift]. cbn. rewrite Hr. cbn.
  destruct (fails k); [reflexivity|]. cbn.
  destruct (update_workoutsession _ _ tx) as [d|e]; reflexivity.
Qed.

End Steps.

(** ** Keys *)

Lemma keys_of_snoc {A : Type} `{BaseModel A} (rows : list A) (x : A) :
  keys_of (rows ++ [x]) = keys_of rows ++ [key x].
Proof. unfold keys_of. by rewrite fmap_app. Qed.

Lemma keys_of_replace_row {A : Type} `{BaseModel A} (x : A) (rows : list A) :
  keys_of (replace_row x rows) = keys_of rows.
Proof.
  unfold keys_of, replace_row. induction rows as [|row rows IH]; [done|].
  rewrite !fmap_cons, IH. f_equal.
  destruct (bool_decide (key row = key x)) eqn:Hk; [|done].
  by apply bool_decide_eq_true in Hk.
Qed.

Lemma primary_key_Ok (pk : option Z) (keys : list (option Z)) (k : Z) :
  primary_key pk keys = Ok k -> (Some k ∉ keys) /\ (pk = None \/ pk = Some k).
Proof.
  unfold primary_key. destruct pk as [k'|].
  - destruct (bool_decide (Some k' ∈ keys)) eqn:Hk; [done|].
    apply bool_decide_eq_false in Hk. intros [= <-]. auto.
  - intros [= <-]. split; [apply next_key_fresh|by left].
Qed.

Lemma keys_unique_snoc (keys : list (option Z)) (k : Z) :
  NoDup keys /\ Forall is_Some keys -> Some k ∉ keys ->
  NoDup (keys ++ [Some k]) /\ Forall is_Some (keys ++ [Some k]).
Proof.
  intros [Hnd Hsome] Hk. split.
  - apply NoDup_app. split; [done|]. split; [|apply NoDup_singleton].
    intros x Hx Hx'. apply list_elem_of_singleton in Hx'. by subst.
  - apply Forall_app. split; [done|]. repeat constructor. by eexists.
Qed.

Lemma keys_unique_fresh {A : Type} `{BaseModel A} (rows : list A) (x : A) (k : Z) :
  key x = Some k -> Some k ∉ keys_of rows ->
  keys_unique rows -> keys_unique (rows ++ [x]).
Proof.
  intros Hk Hfresh Hu. unfold keys_unique. rewrite keys_of_snoc, Hk.
  by apply keys_unique_snoc.
Qed.


Section Loops.

Variable utc : nat -> datetime.
Variable fails : nat -> bool.
Variable foreign_keys : bool.

(** ** The two loops of [create_workout_session] *)

Lemma enumerate_cons {A : Type} (x : A) (l : list A) (i : Z) :
  enumerate (x :: l) i = (i, x) :: enumerate l (Z.succ i).
Proof.
  unfold enumerate. cbn [length]. rewrite Nat2Z.inj_succ.
  rewrite seqZ_cons by lia. rewrite Z.pred_succ. reflexivity.
Qed.

Lemma range_1_4 : range 1 4 = [1; 2; 3].
Proof. reflexivity. Qed.

Lemma session_refs_grow (h : list Entity) (nw idm : list ref) (o : Entity) :
  Forall (fun r' => (r' < length h)%nat) (nw ++ idm) ->
  Forall (fun r' => (r' < length (h ++ [o]))%nat) ((nw ++ [length h]) ++ idm).
Proof.
  intros H'. rewrite length_app. cbn.
  apply Forall_app in H' as [H1 H2].
  apply Forall_app_2; [apply Forall_app_2|].
  - eapply Forall_impl; [exact H1|]. cbn; intros; lia.
  - repeat constructor; lia.
  - eapply Forall_impl; [exact H2|]. cbn; intros; lia.
Qed.

(** One turn of the inner loop: the constructor reads the clock twice,
    the object goes to the end of the heap and into [session.new]. *)
Lemma run_log_set r ws e set_num db h tx nw idm dt n k out :
  h !! r = Some (AWorkoutSession ws) ->
  Forall (fun r' => (r' < length h)%nat) (nw ++ idm) ->
  (ws ← the_WorkoutSession r;
   exercise_log ← ExerciseLog_init utc None None
     (WorkoutSession.session_id ws)
     (Exercise.exercise_id e)
     (Some set_num)
     (Some (if bool_decide (set_num < 3) then 10 else 8))
     (Some (if bool_decide (Exercise.primary_muscle_group e
                            ∈ [Some "Chest"; Some "Back"; Some "Legs"]%string)
            then 50%Q else 25%Q))
     None (Some 60) None (Some "Medium"%string);
   session_add exercise_log)
    (mkState db h (mkSession tx nw idm dt) n k out) =
  (Ok tt,
   mkState db
     (h ++ [AnExerciseLog (log_object utc (WorkoutSession.session_id ws) e set_num n)])
     (mkSession tx (nw ++ [length h]) idm dt) (2 + n) k out).
Proof.
  intros Hr Hall.
  rewrite (run_bind_Ok _ _ _ _ _ (run_the_WorkoutSession _ _ _ _ _ _ _ _ Hr)).
  rewrite run_bind. unfold ExerciseLog_init. cbv [mbind M_bind]. cbn.
  apply run_session_add. by apply length_not_in.
Qed.

Lemma run_log_sets_of r ws e db h tx nw idm dt n k out :
  h !! r = Some (AWorkoutSession ws) ->
  Forall (fun r' => (r' < length h)%nat) (nw ++ idm) ->
  for_each (range 1 4) (fun set_num =>
    ws ← the_WorkoutSession r;
    exercise_log ← ExerciseLog_init utc None None
      (WorkoutSession.session_id ws)
      (Exercise.exercise_id e)
      (Some set_num)
      (Some (if bool_decide (set_num < 3) then 10 else 8))
      (Some (if bool_decide (Exercise.primary_muscle_group e
                             ∈ [Some "Chest"; Some "Back"; Some "Legs"]%string)
             then 50%Q else 25%Q))
      None (Some 60) None (Some "Medium"%string);
    session_add exercise_log)
    (mkState db h (mkSession tx nw idm dt) n k out) =
  (Ok tt,
   mkState db
     (h ++ (AnExerciseLog <$> log_objects utc (WorkoutSession.session_id ws) [e] n))
     (mkSession tx (nw ++ seq (length h) 3) idm dt) (6 + n) k out).
Proof.
  intros Hr Hall. rewrite range_1_4. cbn [for_each].
  set (sid := WorkoutSession.session_id ws).
  set (o1 := AnExerciseLog (log_object utc sid e 1 n)).
  set (o2 := AnExerciseLog (log_object utc sid e 2 (2 + n))).
  set (o3 := AnExerciseLog (log_object utc sid e 3 (4 + n))).
  pose proof (lookup_app_l_Some _ [o1] _ _ Hr) as Hr1.
  pose proof (session_refs_grow _ _ _ o1 Hall) as Hall1.
  pose proof (lookup_app_l_Some _ [o2] _ _ Hr1) as Hr2.
  pose proof (session_refs_grow _ _ _ o2 Hall1) as Hall2.
  rewrite (run_bind_Ok _ _ _ _ _ (run_log_set r ws e 1 _ _ _ _ _ _ _ _ _ Hr Hall)).
  rewrite (run_bind_Ok _ _ _ _ _ (run_log_set r ws e 2 _ _ _ _ _ _ _ _ _ Hr1 Hall1)).
  rewrite (run_bind_Ok _ _ _ _ _ (run_log_set r ws e 3 _ _ _ _ _ _ _ _ _ Hr2 Hall2)).
  fold sid. fold o1 o2 o3. cbn [log_objects fmap list_fmap]. fold sid. fold o1 o2 o3.
  unfold mret, M_ret. rewrite !length_app, <- !app_assoc. cbn [length app seq].
  repeat f_equal; lia.
Qed.

Lemma log_objects_cons sid e exs n :
  log_objects utc sid (e :: exs) n
  = log_objects utc sid [e] n ++ log_objects utc sid exs (6 + n).
Proof. reflexivity. Qed.

Lemma log_objects_length sid exs : forall n,
  length (log_objects utc sid exs n) = (length exs * 3)%nat.
Proof. induction exs as [|e exs IH]; intros n; cbn; [done|]. by rewrite IH. Qed.

Lemma run_log_sets r ws exs : forall i db h tx nw idm dt n k out,
  h !! r = Some (AWorkoutSession ws) ->
  Forall (fun r' => (r' < length h)%nat) (nw ++ idm) ->
  for_each (enumerate exs i) (fun '(i, exercise) =>
    for_each (range 1 4) (fun set_num =>
      ws ← the_WorkoutSession r;
      exercise_log ← ExerciseLog_init utc None None
        (WorkoutSession.session_id ws)
        (Exercise.exercise_id exercise)
        (Some set_num)
        (Some (if bool_decide (set_num < 3) then 10 else 8))
        (Some (if bool_decide (Exercise.primary_muscle_group exercise
                               ∈ [Some "Chest"; Some "Back"; Some "Legs"]%string)
               then 50%Q else 25%Q))
        None (Some 60) None (Some "Medium"%string);
      session_add exercise_log))
    (mkState db h (mkSession tx nw idm dt) n k out) =
  (Ok tt,
   mkState db
     (h ++ (AnExerciseLog <$> log_objects utc (WorkoutSession.session_id ws) exs n))
     (mkSession tx (nw ++ seq (length h) (length exs * 3)) idm dt)
     (length exs * 6 + n) k out).
Proof.
  induction exs as [|e exs IH]; intros i db h tx nw idm dt n k out Hr Hall.
  - cbn. rewrite !app_nil_r. reflexivity.
  - rewrite enumerate_cons. cbn [for_each].
    rewrite (run_bind_Ok _ _ _ _ _ (run_log_sets_of r ws e _ _ _ _ _ _ _ _ _ Hr Hall)).
    rewrite IH.
    + f_equal. f_equal.
      * rewrite <- app_assoc. reflexivity.
      * f_equal. rewrite <- app_assoc. f_equal.
        rewrite length_app, length_fmap. cbn [length log_objects].
        change (S (length exs) * 3)%nat with (3 + length exs * 3)%nat.
        by rewrite seq_app.
      * cbn [length]. lia.
    + by apply lookup_app_l_Some.
    + rewrite length_app. apply Forall_app in Hall as [H1 H2].
      apply Forall_app_2; [apply Forall_app_2|].
      * eapply Forall_impl; [exact H1|]. cbn; intros; lia.
      * apply Forall_forall. intros x Hx. apply elem_of_seq in Hx. cbn. lia.
      * eapply Forall_impl; [exact H2|]. cbn; intros; lia.
Qed.

End Loops.

Section Flush.

Variable utc : nat -> datetime.
Variable fails : nat -> bool.
Variable foreign_keys : bool.

(** ** Writing the objects *)

Lemma insert_session_object uid n d :
  insert_workoutsession foreign_keys (session_object utc uid n) d =
  if implb foreign_keys (bool_decide (Some uid ∈ keys_of (user d)))
  then Ok (keyed (next_key (keys_of (workoutsession d))) (session_object utc uid n),
           with_workoutsession
             (workoutsession d
                ++ [keyed (next_key (keys_of (workoutsession d)))
                      (session_object utc uid n)]) d)
  else Raise IntegrityError.
Proof.
  unfold insert_workoutsession, check_workoutsession, foreign_key.
  cbv [mbind Result_bind]. cbn.
  destruct foreign_keys; [|reflexivity].
  destruct (bool_decide (Some uid ∈ keys_of (user d))); reflexivity.
Qed.

Lemma insert_exerciselog_fresh l d :
  ExerciseLog.exercise_log_id l = None ->
  insert_exerciselog foreign_keys l d =
  match check_exerciselog foreign_keys l d with
  | Ok _ => Ok (keyed (next_key (keys_of (exerciselog d))) l,
                with_exerciselog
                  (exerciselog d ++ [keyed (next_key (keys_of (exerciselog d))) l]) d)
  | Raise e => Raise e
  end.
Proof.
  intros Hk. unfold insert_exerciselog. cbv [mbind Result_bind]. cbn.
  rewrite Hk. cbn. destruct (check_exerciselog foreign_keys l d); reflexivity.
Qed.

Lemma log_objects_new sid exs : forall n,
  Forall (fun l => ExerciseLog.exercise_log_id l = None /\
                   is_Some (ExerciseLog.created_timestamp l))
    (log_objects utc sid exs n).
Proof.
  induction exs as [|e exs IH]; intros n; cbn [log_objects]; [constructor|].
  repeat apply Forall_cons_2; try (split; [reflexivity|by eexists]). apply IH.
Qed.

(** A log of the loop passes the checks of its table when its session
    is there and its exercise carries a key, and only then, whether the
    engine enforces the references or not. *)
Lemma check_log_object sk e set_num n d :
  Some sk ∈ keys_of (workoutsession d) ->
  Exercise.exercise_id e ∈ keys_of (exercise d) ->
  check_exerciselog foreign_keys (log_object utc (Some sk) e set_num n) d =
  match Exercise.exercise_id e with
  | Some _ => Ok tt
  | None => Raise IntegrityError
  end.
Proof.
  intros Hs He. unfold check_exerciselog, foreign_key, not_null.
  cbv [mbind Result_bind]. cbn.
  destruct foreign_keys.
  - rewrite (bool_decide_eq_true_2 _ Hs).
    destruct (Exercise.exercise_id e) as [k|]; [|reflexivity].
    by rewrite (bool_decide_eq_true_2 _ He).
  - by destruct (Exercise.exercise_id e).
Qed.

Lemma checked_logs_keyed sk exs d : forall n,
  Some sk ∈ keys_of (workoutsession d) ->
  Forall (fun e => Exercise.exercise_id e ∈ keys_of (exercise d)) exs ->
  Forall (fun l => check_exerciselog foreign_keys l d = Ok tt) (log_objects utc (Some sk) exs n) ->
  Forall (fun e => is_Some (Exercise.exercise_id e)) exs.
Proof.
  induction exs as [|e exs IH]; intros n Hs Hin Hc; [constructor|].
  apply Forall_cons in Hin as [He Hin]. cbn in Hc.
  apply Forall_cons in Hc as [H1 Hc]. apply Forall_cons in Hc as [_ Hc].
  apply Forall_cons in Hc as [_ Hc].
  constructor; [|by eapply IH].
  rewrite check_log_object in H1 by done.
  destruct (Exercise.exercise_id e); [by eexists|done].
Qed.

Lemma unchecked_logs_unkeyed sk exs d : forall n,
  Some sk ∈ keys_of (workoutsession d) ->
  Forall (fun e => Exercise.exercise_id e ∈ keys_of (exercise d)) exs ->
  Exists (fun l => check_exerciselog foreign_keys l d <> Ok tt) (log_objects utc (Some sk) exs n) ->
  Exists (fun e => Exercise.exercise_id e = None) exs.
Proof.
  induction exs as [|e exs IH]; intros n Hs Hin Hc; [by inversion Hc|].
  apply Forall_cons in Hin as [He Hin]. cbn in Hc.
  assert (Hone : forall j m,
    check_exerciselog foreign_keys (log_object utc (Some sk) e j m) d <> Ok tt ->
    Exercise.exercise_id e = None).
  { intros j m Hj. rewrite check_log_object in Hj by done.
    by destruct (Exercise.exercise_id e). }
  apply Exists_cons in Hc as [Hc|Hc]; [left; by eapply Hone|].
  apply Exists_cons in Hc as [Hc|Hc]; [left; by eapply Hone|].
  apply Exists_cons in Hc as [Hc|Hc]; [left; by eapply Hone|].
  right. by eapply IH.
Qed.

Lemma take_keys (n : nat) (rows : list Exercise.t) :
  Forall (fun e => Exercise.exercise_id e ∈ keys_of rows) (take n rows).
Proof.
  apply Forall_forall. intros e He.
  apply list_elem_of_fmap. exists e. split; [done|].
  apply elem_of_take in He as (i & Hi & _). by eapply list_elem_of_lookup_2.
Qed.

(** The new [ExerciseLog] objects of a flush, one INSERT each: either
    all of them reach the transaction, or a statement failed or a row
    broke a constraint. *)
Lemma run_insert_logs logs : forall pre db tx nw idm dt n k out,
  Forall (fun l => ExerciseLog.exercise_log_id l = None /\
                   is_Some (ExerciseLog.created_timestamp l)) logs ->
  exists r h' d k',
    for_each (seq (length pre) (length logs)) (insert_object utc fails foreign_keys)
      (mkState db (pre ++ (AnExerciseLog <$> logs)) (mkSession tx nw idm dt) n k out)
    = (r, mkState db h' (mkSession d nw idm dt) n k' out) /\
    match r with
    | Ok _ =>
        k' = (length logs + k)%nat /\
        (forall i, (i < length logs)%nat -> fails (i + k) = false) /\
        Forall (fun l => check_exerciselog foreign_keys l tx = Ok tt) logs /\
        exists rows,
          d = with_exerciselog (exerciselog tx ++ rows) tx /\
          Forall2 (fun l row => exists key, row = keyed key l) logs rows /\
          (keys_unique (exerciselog tx) -> keys_unique (exerciselog tx ++ rows))
    | Raise e =>
        (exists i, (i < length logs)%nat /\ fails (i + k) = true) \/
        Exists (fun l => check_exerciselog foreign_keys l tx <> Ok tt) logs
    end.
Proof.
  induction logs as [|l logs IH]; intros pre db tx nw idm dt n k out Hnew.
  - exists (Ok tt), (pre ++ []), tx, k. split; [reflexivity|].
    split; [done|]. split; [intros i Hi; cbn in Hi; lia|]. split; [constructor|].
    exists []. split; [|split; [constructor|by rewrite app_nil_r]].
    destruct tx; cbn. by rewrite app_nil_r.
  - apply Forall_cons in Hnew as [[Hl Hcr] Hnew].
    cbn [length seq for_each fmap list_fmap]. rewrite run_bind.
    rewrite (run_insert_ExerciseLog utc fails foreign_keys _ l);
      [|apply lookup_end|exact Hcr].
    destruct (fails k) eqn:Hf.
    { eexists _, _, _, _. split; [reflexivity|]. left. exists 0%nat. split; [lia|done]. }
    rewrite insert_exerciselog_fresh by done.
    destruct (check_exerciselog foreign_keys l tx) as [[]|e] eqn:Hc.
    2:{ eexists _, _, _, _. split; [reflexivity|]. right. left. congruence. }
    cbv beta iota. rewrite insert_end.
    set (row := keyed (next_key (keys_of (exerciselog tx))) l).
    destruct (IH (pre ++ [AnExerciseLog row]) db
                 (with_exerciselog (exerciselog tx ++ [row]) tx)
                 nw idm dt n (S k) out Hnew)
      as (r & h' & d & k' & Hrun & Hr).
    rewrite length_app, Nat.add_1_r, <- app_assoc in Hrun. cbn [app] in Hrun.
    exists r, h', d, k'. split; [exact Hrun|].
    destruct r as [[]|e].
    + destruct Hr as (-> & Hok & Hchk & rows & -> & Hrows & Hkeys).
      split; [lia|]. split.
      { intros [|i] Hi; [done|]. cbn in Hi.
        replace (S i + k)%nat with (i + S k)%nat by lia. apply Hok. lia. }
      split; [by constructor|].
      exists (row :: rows). split; [|split].
      * destruct tx; cbn. by rewrite <- app_assoc.
      * constructor; [by exists (next_key (keys_of (exerciselog tx)))|done].
      * intros Hu. cbn [exerciselog with_exerciselog] in Hkeys.
        rewrite (cons_middle row), app_assoc. apply Hkeys.
        eapply keys_unique_fresh; [reflexivity|apply next_key_fresh|exact Hu].
    + destruct Hr as [(i & Hi & Hfi)|Hex].
      * left. exists (S i). split; [cbn; lia|].
        by replace (S i + k)%nat with (i + S k)%nat by lia.
      * right. by right.
Qed.

(** The flush that inserts the one new [WorkoutSession]. *)
Lemma run_flush_session r x db h tx idm n k out :
  h !! r = Some (AWorkoutSession x) ->
  is_Some (WorkoutSession.created_timestamp x) ->
  session_flush utc fails foreign_keys (mkState db h (mkSession tx [r] idm []) n k out) =
  if fails k
  then (Raise OperationalError, mkState db h (mkSession tx [r] idm []) n (S k) out)
  else match insert_workoutsession foreign_keys x tx with
       | Ok (row, d) =>
           (Ok tt, mkState db (<[r := AWorkoutSession row]> h)
                     (mkSession d [] (idm ++ [r]) []) n (S k) out)
       | Raise e => (Raise e, mkState db h (mkSession tx [r] idm []) n (S k) out)
       end.
Proof.
  intros Hr Hcr. unfold session_flush.
  cbv [mbind M_bind mret M_ret get_session put_session for_each].
  cbn [session dirty new transaction identity_map].
  rewrite (run_insert_WorkoutSession utc fails foreign_keys r x) by done.
  destruct (fails k); [reflexivity|].
  destruct (insert_workoutsession foreign_keys x tx) as [[row d]|e]; reflexivity.
Qed.

(** The commit of [create_workout_session]: the dirty [WorkoutSession]
    is updated, the new logs are inserted, and COMMIT publishes the
    transaction; any failure on the way leaves the storage as it was. *)
Lemma run_commit_session x logs pre db tx idm n k out :
  Forall (fun l => ExerciseLog.exercise_log_id l = None /\
                   is_Some (ExerciseLog.created_timestamp l)) logs ->
  let x' := touched (utc n) x in
  let tx' := with_workoutsession (replace_row x' (workoutsession tx)) tx in
  exists r s',
    session_commit utc fails foreign_keys
      (mkState db (pre ++ AWorkoutSession x :: (AnExerciseLog <$> logs))
         (mkSession tx (seq (S (length pre)) (length logs)) idm [length pre])
         n k out)
    = (r, s') /\
    stdout s' = out /\
    match r with
    | Ok _ =>
        (forall i, (i < 2 + length logs)%nat -> fails (i + k) = false) /\
        check_workoutsession foreign_keys x' tx = Ok tt /\
        Forall (fun l => check_exerciselog foreign_keys l tx' = Ok tt) logs /\
        exists rows,
          storage s' = with_exerciselog (exerciselog tx ++ rows) tx' /\
          Forall2 (fun l row => exists key, row = keyed key l) logs rows /\
          (keys_unique (exerciselog tx) -> keys_unique (exerciselog tx ++ rows))
    | Raise e =>
        storage s' = db /\
        ((exists i, (i < 2 + length logs)%nat /\ fails (i + k) = true)
         \/ check_workoutsession foreign_keys x' tx <> Ok tt
         \/ Exists (fun l => check_exerciselog foreign_keys l tx' <> Ok tt) logs)
    end.
Proof.
  intros Hnew x' tx'. unfold session_commit, session_flush.
  cbv [mbind M_bind mret M_ret get_session put_session publish].
  cbn [session dirty new transaction identity_map for_each].
  cbv [mbind M_bind mret M_ret].
  rewrite (run_update_WorkoutSession utc fails foreign_keys _ x) by apply lookup_end.
  fold x'. destruct (fails k) eqn:F0.
  { eexists _, _. split; [reflexivity|]. cbn. split; [done|]. split; [done|].
    left. exists 0%nat. split; [lia|done]. }
  unfold update_workoutsession. cbv [mbind Result_bind].
  destruct (check_workoutsession foreign_keys x' tx) as [[]|e] eqn:Hc.
  2:{ eexists _, _. split; [reflexivity|]. cbn. split; [done|]. split; [done|].
      right. left. congruence. }
  fold tx'. rewrite insert_end.
  destruct (run_insert_logs logs (pre ++ [AWorkoutSession x']) db tx'
              (seq (S (length pre)) (length logs)) idm [length pre] (S n) (S k) out
              Hnew) as (r & h' & d & k' & Hrun & Hr).
  rewrite length_app, Nat.add_1_r, <- app_assoc in Hrun. cbn [app] in Hrun.
  rewrite Hrun. destruct r as [[]|e].
  2:{ eexists _, _. split; [reflexivity|]. cbn. split; [done|]. split; [done|].
      destruct Hr as [(i & Hi & Hfi)|Hex].
      - left. exists (S i). split; [lia|].
        by replace (S i + k)%nat with (i + S k)%nat by lia.
      - right. by right. }
  destruct Hr as (-> & Hok & Hchk & rows & -> & Hrows & Hkeys).
  cbv beta iota. cbv [execute with_session with_statements with_storage].
  cbn [session heap storage utcnow_calls statements stdout transaction new
       identity_map dirty].
  destruct (fails (length logs + S k)) eqn:Fc.
  { eexists _, _. split; [reflexivity|]. cbn. split; [done|]. split; [done|].
    left. exists (S (length logs)). split; [lia|].
    by replace (S (length logs) + k)%nat with (length logs + S k)%nat by lia. }
  eexists _, _. split; [reflexivity|]. cbn. split; [done|].
  split.
  { intros i Hi. destruct i as [|i]; [done|].
    destruct (decide (i = length logs)) as [->|Hne].
    - by replace (S (length logs) + k)%nat with (length logs + S k)%nat by lia.
    - replace (S i + k)%nat with (i + S k)%nat by lia. apply Hok. lia. }
  split; [done|]. split; [done|].
  exists rows. split; [reflexivity|]. split; [done|exact Hkeys].
Qed.

End Flush.

Section Outcome.

Variable utc : nat -> datetime.
Variable fails : nat -> bool.
Variable foreign_keys : bool.

(** ** What a call does *)

(** Every run of [create_workout_session], whatever the clock reads,
    whichever statements fail and whether the engine enforces foreign
    keys.  A call that raises has left the storage alone, and a statement
    failed, the engine enforces foreign keys and the user is missing, or
    an exercise has no key.  A call that returns has found no exercise
    and printed its line, or has persisted the session and the logs. *)
Lemma create_workout_session_outcome uid s :
  let d := storage s in
  let exs := take 3 (exercise d) in
  let m := length exs in
  let n := utcnow_calls s in
  let k := statements s in
  let sk := next_key (keys_of (workoutsession d)) in
  exists r s',
    create_workout_session utc fails foreign_keys uid s = (r, s') /\
    match r with
    | Raise e =>
        storage s' = d /\
        ((exists i, (i < 4 + m * 3)%nat /\ fails (i + k) = true)
         \/ (foreign_keys = true /\ Some uid ∉ keys_of (user d))
         \/ Exists (fun e => Exercise.exercise_id e = None) exs)
    | Ok _ =>
        (exs = [] /\
         s' = with_session (open_session d)
                (with_stdout
                   (stdout s ++ ["No exercises found. Please add exercises first."%string])
                   (with_statements (S k) s)))
        \/
        (exs <> [] /\
         (foreign_keys = true -> Some uid ∈ keys_of (user d)) /\
         Forall (fun e => is_Some (Exercise.exercise_id e)) exs /\
         stdout s' = stdout s /\
         exists rows,
           storage s' =
             with_exerciselog (exerciselog d ++ rows)
               (with_workoutsession
                  (workoutsession d ++ [session_row utc uid sk n m]) d) /\
           Forall2 (fun l row => exists key, row = keyed key l)
             (log_objects utc (Some sk) exs (4 + n)) rows /\
           (keys_unique (exerciselog d) -> keys_unique (exerciselog d ++ rows)))
    end.
Proof.
  destruct s as [db h ss n k out]. cbv zeta.
  cbn [storage utcnow_calls statements stdout].
  set (sk := next_key (keys_of (workoutsession db))).
  unfold create_workout_session. rewrite run_with_Session.
  rewrite run_bind, run_query_Exercise_limit.
  destruct (fails k) eqn:F0.
  { eexists _, _. split; [reflexivity|]. cbn. split; [done|].
    left. exists 0%nat. split; [lia|done]. }
  destruct (take 3 (exercise db)) as [|e0 exs'] eqn:Hexs.
  { eexists _, _. split; [reflexivity|]. left. split; [done|]. reflexivity. }
  cbv beta iota.
  assert (Hne : e0 :: exs' <> []) by done.
  revert Hne Hexs. generalize (e0 :: exs'). clear e0 exs'. intros exs Hne Hexs.
  rewrite run_bind, run_utcnow. cbv beta iota.
  rewrite run_bind, run_utcnow. cbv beta iota.
  rewrite run_bind, run_WorkoutSession_init. cbv beta iota.
  rewrite run_bind, run_session_add by (cbn; apply not_elem_of_nil).
  cbv beta iota. cbn [app].
  rewrite run_bind, (run_flush_session _ _ _ _ (session_object utc uid n));
    [|apply lookup_end|by eexists].
  destruct (fails (S k)) eqn:F1.
  { eexists _, _. split; [reflexivity|]. cbn. split; [done|].
    left. exists 1%nat. split; [lia|done]. }
  rewrite insert_session_object.
  destruct (implb foreign_keys (bool_decide (Some uid ∈ keys_of (user db))))
    eqn:Himp.
  2:{ destruct foreign_keys; [|discriminate Himp]. cbn in Himp.
      apply bool_decide_eq_false in Himp.
      eexists _, _. split; [reflexivity|]. cbn. split; [done|].
      right. by left. }
  assert (Huser : foreign_keys = true -> Some uid ∈ keys_of (user db)).
  { intros ->. cbn in Himp. by apply bool_decide_eq_true in Himp. }
  cbv beta iota. fold sk. rewrite insert_end. cbn [app].
  remember (keyed sk (session_object utc uid n)) as ws1 eqn:Hws1.
  assert (Hstart : WorkoutSession.start_time ws1 = Some (utc (1 + n)))
    by (subst ws1; reflexivity).
  assert (Hsid : WorkoutSession.session_id ws1 = Some sk)
    by (subst ws1; reflexivity).
  rewrite run_bind, (run_log_sets utc (length h) ws1).
  2:{ apply lookup_end. }
  2:{ rewrite length_app. cbn. repeat constructor. lia. }
  cbv beta iota. rewrite <- app_assoc. cbn [app].
  rewrite run_bind, run_utcnow. cbv beta iota.
  rewrite run_bind, (run_assign_WorkoutSession (length h) ws1);
    [|apply lookup_end|by apply list_elem_of_singleton].
  cbv beta iota. rewrite insert_end.
  rewrite (bool_decide_eq_false_2 (length h ∈ [])) by apply not_elem_of_nil.
  cbn [app].
  rewrite run_bind. erewrite run_the_WorkoutSession by apply lookup_end.
  cbv beta iota.
  cbn [WorkoutSession.end_time WorkoutSession.start_time WorkoutSession.set_end_time].
  rewrite Hstart, Hsid. rewrite run_bind. unfold mret at 1, M_ret at 1. cbv beta iota.
  rewrite run_bind.
  erewrite run_assign_WorkoutSession;
    [|apply lookup_end|by apply list_elem_of_singleton].
  cbv beta iota. rewrite insert_end.
  rewrite (bool_decide_eq_true_2 (length h ∈ [length h]))
    by (by apply list_elem_of_singleton).
  set (m := length exs).
  set (t_end := utc (m * 6 + S (S (S (S n))))).
  set (ws2 := WorkoutSession.set_total_duration _ _).
  set (logs := log_objects utc (Some sk) exs (S (S (S (S n))))).
  rewrite length_app, Nat.add_1_r.
  replace (m * 3)%nat with (length logs) by apply log_objects_length.
  destruct (run_commit_session utc fails foreign_keys ws2 logs h db
              (with_workoutsession (workoutsession db ++ [ws1]) db)
              [length h] (S (m * 6 + S (S (S (S n))))) (S (S k)) out
              (log_objects_new utc _ _ _))
    as (r & s' & Hrun & Hout & Hr).
  rewrite Hrun. exists r, (with_session (open_session (storage s')) s').
  split; [reflexivity|].
  assert (Hfresh : Some sk ∉ keys_of (workoutsession db)) by apply next_key_fresh.
  set (ws3 := touched (utc (S (m * 6 + S (S (S (S n)))))) ws2) in *.
  assert (Hrow : ws3 = session_row utc uid sk n m).
  { subst ws3 ws2 ws1 t_end. unfold session_row. cbn.
    replace (m * 6 + S (S (S (S n))))%nat with (S (S (S (S (m * 6 + n))))) by lia.
    reflexivity. }
  assert (Htx : with_workoutsession
                  (replace_row ws3
                     (workoutsession
                        (with_workoutsession (workoutsession db ++ [ws1]) db)))
                  (with_workoutsession (workoutsession db ++ [ws1]) db)
                = with_workoutsession
                    (workoutsession db ++ [session_row utc uid sk n m]) db).
  { cbn [workoutsession with_workoutsession].
    rewrite replace_row_last.
    - rewrite Hrow. reflexivity.
    - rewrite Hrow. exact Hfresh.
    - subst ws3 ws2 ws1. reflexivity. }
  rewrite Htx in Hr. clear Htx.
  assert (Hsk : Some sk ∈ keys_of
            (workoutsession
               (with_workoutsession
                  (workoutsession db ++ [session_row utc uid sk n m]) db))).
  { cbn [workoutsession with_workoutsession]. unfold keys_of.
    rewrite fmap_app. apply elem_of_app. right. by apply list_elem_of_singleton. }
  assert (Hin : Forall (fun e => Exercise.exercise_id e ∈ keys_of (exercise db)) exs).
  { rewrite <- Hexs. apply take_keys. }
  destruct r as [[]|e].
  - destruct Hr as (Hok & _ & Hchk & rows & Hst & Hrows & Hkeys).
    right. split; [done|]. split; [done|]. split.
    { eapply checked_logs_keyed; [exact Hsk|exact Hin|exact Hchk]. }
    split; [exact Hout|]. exists rows. split; [|split; [exact Hrows|exact Hkeys]].
    cbn. rewrite Hst. reflexivity.
  - destruct Hr as (Hst & Hr). split; [exact Hst|].
    destruct Hr as [(i & Hi & Hfi)|[Hc|Hex]].
    + left. exists (S (S i)). split.
      * lia.
      * by replace (S (S i) + k)%nat with (i + S (S k))%nat by lia.
    + exfalso. apply Hc.
      subst ws3 ws2 ws1. unfold check_workoutsession, foreign_key.
      cbv [mbind Result_bind]. cbn.
      destruct foreign_keys; [|done].
      by rewrite (bool_decide_eq_true_2 _ (Huser eq_refl)).
    + right. right.
      eapply unchecked_logs_unkeyed; [exact Hsk|exact Hin|exact Hex].
Qed.

End Outcome.

Section Rows.

Variable utc : nat -> datetime.
Variable fails : nat -> bool.
Variable foreign_keys : bool.

(** ** What a call leaves in the storage *)

Lemma storage_unchanged (d : Database) :
  with_exerciselog (exerciselog d ++ [])
    (with_workoutsession (workoutsession d ++ []) d) = d.
Proof. destruct d. cbn. by rewrite !app_nil_r. Qed.

(** The rows a call adds: none, or one session with the three logs of
    each of the first three exercises. *)
Lemma create_workout_session_rows uid s :
  let d := storage s in
  let exs := take 3 (exercise d) in
  let sk := next_key (keys_of (workoutsession d)) in
  exists r s' sessions logs,
    create_workout_session utc fails foreign_keys uid s = (r, s') /\
    storage s' =
      with_exerciselog (exerciselog d ++ logs)
        (with_workoutsession (workoutsession d ++ sessions) d) /\
    ((sessions = [] /\ logs = [] /\ (r = Ok tt -> exs = [])) \/
     (r = Ok tt /\ exs <> [] /\
      (foreign_keys = true -> Some uid ∈ keys_of (user d)) /\
      Forall (fun e => is_Some (Exercise.exercise_id e)) exs /\
      sessions = [session_row utc uid sk (utcnow_calls s) (length exs)] /\
      Forall2 (fun l row => exists key, row = keyed key l)
        (log_objects utc (Some sk) exs (4 + utcnow_calls s)) logs)).
Proof.
  intros d exs sk.
  destruct (create_workout_session_outcome utc fails foreign_keys uid s)
    as (r & s' & Hrun & Hr).
  destruct r as [[]|e].
  - destruct Hr as [[Hnil ->]|(Hne & Hu & Hk & _ & rows & Hst & Hrows & _)].
    + eexists (Ok tt), _, [], []. split; [exact Hrun|]. split; [|by left].
      cbn. by rewrite storage_unchanged.
    + eexists (Ok tt), s', _, rows. split; [exact Hrun|]. split; [exact Hst|].
      right. done.
  - destruct Hr as [Hst _]. exists (Raise e), s', [], [].
    split; [exact Hrun|]. split; [|by left].
    by rewrite storage_unchanged.
Qed.

(** A call succeeds when the engine carries out every statement, the
    user is there or the engine does not ask, and the exercises the call
    reads carry their keys. *)
Lemma create_workout_session_succeeds uid s :
  (forall i, fails i = false) ->
  (foreign_keys = true -> Some uid ∈ keys_of (user (storage s))) ->
  Forall (fun e => is_Some (Exercise.exercise_id e)) (take 3 (exercise (storage s))) ->
  exists s', create_workout_session utc fails foreign_keys uid s = (Ok tt, s').
Proof.
  intros Hf Hu Hk.
  destruct (create_workout_session_outcome utc fails foreign_keys uid s)
    as (r & s' & Hrun & Hr).
  destruct r as [[]|e]; [by exists s'|]. exfalso.
  destruct Hr as [_ [(i & _ & Hi)|[Hn|Hex]]].
  - by rewrite Hf in Hi.
  - destruct Hn as [Hfk Hn]. by apply Hn, Hu.
  - apply Exists_exists in Hex as (x & Hx & Hnone).
    rewrite Forall_forall in Hk. destruct (Hk x Hx) as [k Hsome]. congruence.
Qed.

(** What [keyed] leaves alone holds of the stored rows as it holds of
    the objects. *)
Lemma stored_Forall (P : ExerciseLog.t -> Prop) (objs rows : list ExerciseLog.t) :
  (forall k l, P l -> P (keyed k l)) ->
  Forall2 (fun l row => exists key, row = keyed key l) objs rows ->
  Forall P objs -> Forall P rows.
Proof.
  intros HP H2. induction H2 as [|l row objs rows (k & ->) _ IH]; [done|].
  intros Hall. apply Forall_cons in Hall as [Hl Hall].
  constructor; auto.
Qed.

Lemma stored_fmap {B : Type} (f : ExerciseLog.t -> B) (objs rows : list ExerciseLog.t) :
  (forall k l, f (keyed k l) = f l) ->
  Forall2 (fun l row => exists key, row = keyed key l) objs rows ->
  f <$> rows = f <$> objs.
Proof.
  intros Hf H2. induction H2 as [|l row objs rows (k & ->) _ IH]; [done|].
  cbn. by rewrite Hf, IH.
Qed.

Lemma log_objects_Forall (P : ExerciseLog.t -> Prop) sid exs :
  (forall e set_num n, e ∈ exs -> set_num ∈ [1; 2; 3] -> P (log_object utc sid e set_num n)) ->
  forall n, Forall P (log_objects utc sid exs n).
Proof.
  induction exs as [|e exs IH]; intros HP n; cbn; [constructor|].
  constructor; [apply HP; [by left|by left]|].
  constructor; [apply HP; [by left|by right; left]|].
  constructor; [apply HP; [by left|by right; right; left]|].
  apply IH. intros e' j n' He'. apply HP. by right.
Qed.

End Rows.

(** * The schema *)

Lemma foreign_key_Ok (fk : option Z) (keys : list (option Z)) :
  foreign_key true fk keys = Ok tt -> fk = None \/ fk ∈ keys.
Proof.
  unfold foreign_key. destruct fk as [k|]; [|by left].
  destruct (bool_decide (Some k ∈ keys)) eqn:Hk; [|done].
  apply bool_decide_eq_true in Hk. by right.
Qed.

Lemma foreign_key_dangling (k : Z) (keys : list (option Z)) :
  Some k ∉ keys -> foreign_key true (Some k) keys = Raise IntegrityError.
Proof. intros Hk. unfold foreign_key. by rewrite (bool_decide_eq_false_2 _ Hk). Qed.

Lemma primary_key_error (pk : option Z) (keys : list (option Z)) e :
  primary_key pk keys = Raise e -> e = IntegrityError.
Proof.
  unfold primary_key. destruct pk as [k|]; [|done].
  destruct (bool_decide (Some k ∈ keys)); [|done]. by intros [= <-].
Qed.

Lemma key_in_table {A : Type} `{BaseModel A} (k : option Z) (rows : list A) :
  k ∈ keys_of rows -> exists row, row ∈ rows /\ key row = k.
Proof.
  intros Hk. apply list_elem_of_fmap in Hk as (row & -> & Hrow). by exists row.
Qed.

Lemma insert_exercise_Ok enforced x d row d' :
  insert_exercise enforced x d = Ok (row, d') ->
  exists k,
    row = keyed k x /\ d' = with_exercise (exercise d ++ [row]) d /\
    check_exercise enforced x d = Ok tt.
Proof.
  unfold insert_exercise. cbv [mbind Result_bind].
  destruct (primary_key _ _) as [k|e]; [|done].
  destruct (check_exercise enforced x d) as [[]|e]; [|done].
  intros [= <- <-]. by exists k.
Qed.

Lemma insert_exerciselog_Ok enforced l d row d' :
  insert_exerciselog enforced l d = Ok (row, d') ->
  exists k,
    row = keyed k l /\ d' = with_exerciselog (exerciselog d ++ [row]) d /\
    check_exerciselog enforced l d = Ok tt.
Proof.
  unfold insert_exerciselog. cbv [mbind Result_bind].
  destruct (primary_key _ _) as [k|e]; [|done].
  destruct (check_exerciselog enforced l d) as [[]|e]; [|done].
  intros [= <- <-]. by exists k.
Qed.

Lemma check_exerciselog_Ok l d :
  check_exerciselog true l d = Ok tt ->
  is_Some (ExerciseLog.session_id l) /\
  ExerciseLog.session_id l ∈ keys_of (workoutsession d) /\
  is_Some (ExerciseLog.exercise_id l) /\
  ExerciseLog.exercise_id l ∈ keys_of (exercise d).
Proof.
  unfold check_exerciselog, not_null, foreign_key. cbv [mbind Result_bind].
  destruct (ExerciseLog.session_id l) as [sk|]; [|done].
  destruct (bool_decide (Some sk ∈ keys_of (workoutsession d))) eqn:Hs; [|done].
  destruct (ExerciseLog.exercise_id l) as [ek|]; [|done].
  destruct (bool_decide (Some ek ∈ keys_of (exercise d))) eqn:He; [|done].
  apply bool_decide_eq_true in Hs, He. intros _.
  repeat split; try done; by eexists.
Qed.

(** [NOT NULL] is checked by every engine. *)
Lemma check_exerciselog_null enforced l d :
  ExerciseLog.session_id l = None \/ ExerciseLog.exercise_id l = None ->
  check_exerciselog enforced l d = Raise IntegrityError.
Proof.
  unfold check_exerciselog, not_null, foreign_key. cbv [mbind Result_bind].
  intros [H|H]; rewrite H; [done|].
  destruct (ExerciseLog.session_id l) as [sk|]; [|done].
  destruct enforced; [|done].
  by destruct (bool_decide (Some sk ∈ keys_of (workoutsession d))).
Qed.

(** An engine that does not enforce foreign keys asks a log for its two
    references and for nothing else. *)
Lemma check_exerciselog_lenient l d :
  is_Some (ExerciseLog.session_id l) -> is_Some (ExerciseLog.exercise_id l) ->
  check_exerciselog false l d = Ok tt.
Proof.
  intros [sk Hs] [ek He]. unfold check_exerciselog, not_null, foreign_key.
  cbv [mbind Result_bind]. by rewrite Hs, He.
Qed.

(** The set number of a log plays no part in an INSERT. *)
Lemma insert_exerciselog_set_number enforced v l d :
  insert_exerciselog enforced (ExerciseLog.set_set_number v l) d =
  match insert_exerciselog enforced l d with
  | Ok (row, d') =>
      Ok (ExerciseLog.set_set_number v row,
          with_exerciselog (exerciselog d ++ [ExerciseLog.set_set_number v row]) d)
  | Raise e => Raise e
  end.
Proof.
  unfold insert_exerciselog. cbv [mbind Result_bind].
  change (key (ExerciseLog.set_set_number v l)) with (key l).
  destruct (primary_key _ _) as [k|e]; [|done].
  change (check_exerciselog enforced (ExerciseLog.set_set_number v l) d)
    with (check_exerciselog enforced l d).
  by destruct (check_exerciselog enforced l d) as [[]|e].
Qed.

(** C7 at the gym.  An exercise that names no workout type is accepted,
    even by an engine that enforces foreign keys, and its row keeps the
    NULL; and an engine that does not enforce them stores an exercise of
    workout type 7, which the gym does not have. *)
Lemma exercise_without_workout_type_counterexample :
  (exists row d,
     insert_exercise strict
       (burpee None) gym
     = Ok (row, d) /\
     row ∈ exercise d /\
     Exercise.workout_type_id row = None) /\
  (exists row d,
     insert_exercise lenient
       (burpee (Some 7)) gym
     = Ok (row, d) /\
     row ∈ exercise d /\
     Exercise.workout_type_id row = Some 7 /\
     ~ (exists wt, wt ∈ workouttype d /\ WorkoutType.workout_type_id wt = Some 7)).
Proof.
  split.
  - eexists _, _. split; [reflexivity|]. split; [|reflexivity].
    cbn. do 4 apply list_elem_of_further. apply list_elem_of_here.
  - eexists _, _. split; [reflexivity|]. split; [|split; [reflexivity|]].
    + cbn. do 4 apply list_elem_of_further. apply list_elem_of_here.
    + cbn. intros (wt & Hwt & H7).
      apply list_elem_of_singleton in Hwt. subst wt. discriminate H7.
Qed.

(** C7, as the schema and the engine have it.  [workout_type_id] is
    optional and only declared a foreign key.  On every engine a row
    that is accepted is stored with the value it was given, and an
    exercise that names no workout type and brings no key is accepted.
    On an engine that enforces foreign keys the value of an accepted row
    is NULL or the key of a workout type of the table, and a value that
    names no workout type is refused with [IntegrityError]; an engine
    that does not enforce them stores such a value as it is. *)
Theorem exercise_workout_type_optional (x : Exercise.t) (d : Database) :
  (forall enforced row d',
     insert_exercise enforced x d = Ok (row, d') ->
     row ∈ exercise d' /\
     Exercise.workout_type_id row = Exercise.workout_type_id x) /\
  (forall enforced,
     Exercise.workout_type_id x = None ->
     Exercise.exercise_id x = None ->
     exists row d',
       insert_exercise enforced x d = Ok (row, d') /\
       Exercise.workout_type_id row = None) /\
  (forall row d',
     insert_exercise true x d = Ok (row, d') ->
     Exercise.workout_type_id row = None \/
     exists wt, wt ∈ workouttype d' /\
                WorkoutType.workout_type_id wt = Exercise.workout_type_id row) /\
  (forall t,
     Exercise.workout_type_id x = Some t ->
     Some t ∉ keys_of (workouttype d) ->
     insert_exercise true x d = Raise IntegrityError) /\
  (forall t,
     Exercise.workout_type_id x = Some t ->
     Some t ∉ keys_of (workouttype d) ->
     Exercise.exercise_id x = None ->
     exists row d',
       insert_exercise false x d = Ok (row, d') /\
       row ∈ exercise d' /\
       Exercise.workout_type_id row = Some t /\
       Some t ∉ keys_of (workouttype d')).
Proof.
  split_and!.
  - intros enforced row d' Hins.
    apply insert_exercise_Ok in Hins as (k & -> & -> & Hchk).
    split; [cbn; apply elem_of_app; right; apply list_elem_of_here|reflexivity].
  - intros enforced Hnone Hkey.
    unfold insert_exercise, check_exercise, primary_key, foreign_key.
    cbv [mbind Result_bind]. cbn [key Exercise_model].
    rewrite Hkey, Hnone. eexists _, _. by destruct enforced.
  - intros row d' Hins.
    apply insert_exercise_Ok in Hins as (k & -> & -> & Hchk).
    apply foreign_key_Ok in Hchk as [Hnone|Hin]; [by left|right].
    apply key_in_table in Hin as (wt & Hwt & Hk). by exists wt.
  - intros t Ht Hdangling. unfold insert_exercise, check_exercise.
    cbv [mbind Result_bind].
    destruct (primary_key _ _) as [k|e] eqn:Hpk.
    + by rewrite Ht, foreign_key_dangling.
    + by rewrite (primary_key_error _ _ _ Hpk).
  - intros t Ht Hdangling Hkey.
    unfold insert_exercise, check_exercise, primary_key, foreign_key.
    cbv [mbind Result_bind]. cbn [key Exercise_model]. rewrite Hkey.
    eexists _, _. split; [reflexivity|].
    split; [cbn; apply elem_of_app; right; apply list_elem_of_here|].
    split; [exact Ht|exact Hdangling].
Qed.

(** C7, as the schema and the engine have it, at the gym: workout type 1
    is there, workout type 7 is not. *)
Lemma exercise_workout_type_optional_witness :
  (Some 7 ∉ keys_of (workouttype gym)) /\
  insert_exercise strict (burpee (Some 7)) gym = Raise IntegrityError /\
  exists row d',
    insert_exercise lenient (burpee (Some 7)) gym = Ok (row, d') /\
    Exercise.workout_type_id row = Some 7.
Proof.
  assert (H7 : Some 7 ∉ keys_of (workouttype gym)).
  { intros H. apply elem_of_cons in H as [H|H]; [discriminate|].
    by apply elem_of_nil in H. }
  pose proof (exercise_workout_type_optional (burpee (Some 7)) gym)
    as (_ & _ & _ & Hstrict & Hlenient).
  split; [exact H7|]. split; [exact (Hstrict 7 eq_refl H7)|].
  destruct (Hlenient 7 eq_refl H7 eq_refl) as (row & d' & Hins & _ & Hwt & _).
  by exists row, d'.
Defined.

(** C8 at the gym after a workout.  A log with set number 0 for session
    1 and exercise 1 is accepted as it is, even by an engine that
    enforces foreign keys; and an engine that does not enforce them
    stores a log of session 5, which the gym does not have. *)
Lemma set_number_zero_counterexample :
  (exists row d,
     insert_exerciselog strict
       (a_set (Some 1) (Some 1) (Some 0)) gym_after
     = Ok (row, d) /\
     row ∈ exerciselog d /\
     ExerciseLog.set_number row = Some 0 /\
     ~ (exists k, ExerciseLog.set_number row = Some k /\ 1 <= k)) /\
  (exists row d,
     insert_exerciselog lenient
       (a_set (Some 5) (Some 1) (Some 1)) gym_after
     = Ok (row, d) /\
     row ∈ exerciselog d /\
     ExerciseLog.session_id row = Some 5 /\
     ~ (exists ws, ws ∈ workoutsession d /\ WorkoutSession.session_id ws = Some 5)).
Proof.
  split.
  - eexists _, _. split; [vm_compute; reflexivity|].
    split; [|split; [reflexivity|]].
    + do 9 apply list_elem_of_further. apply list_elem_of_here.
    + intros (k & Hk & Hle). cbn in Hk. injection Hk as <-. lia.
  - eexists _, _. split; [vm_compute; reflexivity|].
    split; [|split; [reflexivity|]].
    + do 9 apply list_elem_of_further. apply list_elem_of_here.
    + intros (ws & Hws & H5).
      apply list_elem_of_singleton in Hws. subst ws. discriminate H5.
Qed.

(** C8, as the schema and the engine have it.  No table checks a set
    number: a log is accepted or refused whatever its set number, and
    stored with the one it brings.  [session_id] and [exercise_id] are
    [NOT NULL] on every engine and only declared foreign keys.  On an
    engine that enforces foreign keys a log that is accepted names a
    session and an exercise of the tables, and a log whose [session_id]
    names no session is refused with [IntegrityError]; an engine that
    does not enforce them stores a log that brings both references,
    whatever they name.  On either, the logs a call of
    [create_workout_session] persists have set numbers 1 to 3 and name
    the session and an exercise the storage holds. *)
Theorem exercise_log_references (utc : nat -> datetime) (fails : nat -> bool)
    (foreign_keys : bool) (uid : Z) (s : State) (l : ExerciseLog.t) (d : Database) :
  let referenced (tables : Database) (row : ExerciseLog.t) :=
    (exists ws, ws ∈ workoutsession tables /\
                is_Some (WorkoutSession.session_id ws) /\
                WorkoutSession.session_id ws = ExerciseLog.session_id row) /\
    (exists e, e ∈ exercise tables /\
               is_Some (Exercise.exercise_id e) /\
               Exercise.exercise_id e = ExerciseLog.exercise_id row) in
  (forall enforced v,
     insert_exerciselog enforced (ExerciseLog.set_set_number v l) d =
     match insert_exerciselog enforced l d with
     | Ok (row, d') =>
         Ok (ExerciseLog.set_set_number v row,
             with_exerciselog
               (exerciselog d ++ [ExerciseLog.set_set_number v row]) d)
     | Raise e => Raise e
     end) /\
  (forall enforced row d',
     insert_exerciselog enforced l d = Ok (row, d') ->
     row ∈ exerciselog d' /\
     ExerciseLog.set_number row = ExerciseLog.set_number l /\
     is_Some (ExerciseLog.session_id row) /\
     is_Some (ExerciseLog.exercise_id row)) /\
  (forall row d',
     insert_exerciselog true l d = Ok (row, d') -> referenced d' row) /\
  (ExerciseLog.session_id l ∉ keys_of (workoutsession d) ->
   insert_exerciselog true l d = Raise IntegrityError) /\
  (is_Some (ExerciseLog.session_id l) ->
   is_Some (ExerciseLog.exercise_id l) ->
   ExerciseLog.exercise_log_id l = None ->
   exists row d',
     insert_exerciselog false l d = Ok (row, d') /\
     row ∈ exerciselog d' /\
     ExerciseLog.session_id row = ExerciseLog.session_id l /\
     ExerciseLog.exercise_id row = ExerciseLog.exercise_id l) /\
  (exists r s' logs,
     create_workout_session utc fails foreign_keys uid s = (r, s') /\
     exerciselog (storage s') = exerciselog (storage s) ++ logs /\
     Forall (fun row =>
       (exists k, ExerciseLog.set_number row = Some k /\ 1 <= k <= 3) /\
       referenced (storage s') row) logs).
Proof.
  intros referenced. split_and!.
  - intros enforced v. apply insert_exerciselog_set_number.
  - intros enforced row d' Hins.
    apply insert_exerciselog_Ok in Hins as (k & -> & -> & Hchk).
    split; [cbn; apply elem_of_app; right; apply list_elem_of_here|].
    split; [reflexivity|].
    destruct (ExerciseLog.session_id l) as [sk|] eqn:Hs.
    2:{ rewrite check_exerciselog_null in Hchk by (by left). discriminate Hchk. }
    destruct (ExerciseLog.exercise_id l) as [ek|] eqn:He.
    2:{ rewrite check_exerciselog_null in Hchk by (by right). discriminate Hchk. }
    cbn. rewrite Hs, He. split; by eexists.
  - intros row d' Hins.
    apply insert_exerciselog_Ok in Hins as (k & -> & -> & Hchk).
    apply check_exerciselog_Ok in Hchk as (Hs & Hsin & He & Hein).
    apply key_in_table in Hsin as (ws & Hws & Hwk).
    apply key_in_table in Hein as (e & Hex & Hek).
    split.
    + exists ws. split; [done|]. cbn in Hwk. split; [by rewrite Hwk|done].
    + exists e. split; [done|]. cbn in Hek. split; [by rewrite Hek|done].
  - intros Hdangling. unfold insert_exerciselog, check_exerciselog, not_null.
    cbv [mbind Result_bind].
    destruct (primary_key _ _) as [k|e] eqn:Hpk;
      [|by rewrite (primary_key_error _ _ _ Hpk)].
    destruct (ExerciseLog.session_id l) as [sk|]; [|done].
    by rewrite foreign_key_dangling.
  - intros Hs He Hkey. unfold insert_exerciselog, primary_key.
    cbv [mbind Result_bind]. cbn [key ExerciseLog_model]. rewrite Hkey.
    rewrite check_exerciselog_lenient by done.
    eexists _, _. split; [reflexivity|].
    split; [cbn; apply elem_of_app; right; apply list_elem_of_here|done].
  - destruct (create_workout_session_rows utc fails foreign_keys uid s)
      as (r & s' & sessions & logs & Hrun & Hst & Hcase).
    exists r, s', logs. split; [done|]. split; [by rewrite Hst|].
    destruct Hcase as [(_ & -> & _)|(_ & _ & _ & Hkeys & -> & Hrows)];
      [constructor|].
    assert (Hex : exercise (storage s') = exercise (storage s)) by (by rewrite Hst).
    eapply stored_Forall; [|exact Hrows|].
    { intros k row H. exact H. }
    apply log_objects_Forall. intros e j n He Hj. split.
    + exists j. split; [reflexivity|].
      repeat (apply elem_of_cons in Hj as [->|Hj]; [lia|]).
      by apply elem_of_nil in Hj.
    + split.
      * eexists. split.
        { rewrite Hst. cbn. apply elem_of_app. right. apply list_elem_of_here. }
        split; [by eexists|reflexivity].
      * exists e. split; [|split; [|reflexivity]].
        -- rewrite Hex. apply elem_of_take in He as (i & Hi & _).
           by eapply list_elem_of_lookup_2.
        -- rewrite Forall_forall in Hkeys. by apply Hkeys.
Qed.

(** C8, as the schema and the engine have it, at the gym: there is no
    session 5. *)
Lemma exercise_log_references_witness :
  (Some 5 ∉ keys_of (workoutsession gym)) /\
  insert_exerciselog strict (a_set (Some 5) (Some 1) (Some 1)) gym
  = Raise IntegrityError /\
  exists row d',
    insert_exerciselog lenient (a_set (Some 5) (Some 1) None) gym = Ok (row, d') /\
    ExerciseLog.session_id row = Some 5 /\
    ExerciseLog.set_number row = None.
Proof.
  assert (H5 : Some 5 ∉ keys_of (workoutsession gym)) by apply not_elem_of_nil.
  split; [exact H5|]. split.
  - exact (proj1 (proj2 (proj2 (proj2
             (exercise_log_references steady_clock reliable lenient 1 (boot gym)
                (a_set (Some 5) (Some 1) (Some 1)) gym)))) H5).
  - destruct (proj1 (proj2 (proj2 (proj2 (proj2
               (exercise_log_references steady_clock reliable lenient 1 (boot gym)
                  (a_set (Some 5) (Some 1) None) gym)))))
               ltac:(by eexists) ltac:(by eexists) eq_refl)
      as (row & d' & Hins & _ & Hs & _).
    exists row, d'. split; [exact Hins|]. split; [exact Hs|].
    destruct (proj1 (proj2
               (exercise_log_references steady_clock reliable lenient 1 (boot gym)
                  (a_set (Some 5) (Some 1) None) gym))
               lenient row d' Hins) as (_ & Hn & _).
    exact Hn.
Defined.

(** * The composite operation *)

Lemma NoDup_fmap_eq {A B : Type} (f : A -> B) (l : list A) (x y : A) :
  NoDup (f <$> l) -> x ∈ l -> y ∈ l -> f x = f y -> x = y.
Proof.
  induction l as [|a l IH]; intros Hnd Hx Hy Hf; [by inversion Hx|].
  rewrite fmap_cons in Hnd. apply NoDup_cons in Hnd as [Ha Hnd].
  apply elem_of_cons in Hx as [->|Hx]; apply elem_of_cons in Hy as [->|Hy].
  - reflexivity.
  - exfalso. apply Ha. rewrite Hf. apply list_elem_of_fmap. by exists y.
  - exfalso. apply Ha. rewrite <- Hf. apply list_elem_of_fmap. by exists x.
  - by apply IH.
Qed.

Lemma gym_exercise_keys : NoDup (keys_of (exercise (storage (boot gym)))).
Proof.
  cbn. repeat apply NoDup_cons_2; try apply NoDup_nil_2;
    intros H; repeat (apply elem_of_cons in H as [H|H]; [discriminate|]);
    by apply elem_of_nil in H.
Qed.

(** [query_workout_type_table] at the gym: one more workout type, with
    the next key and both timestamps. *)
Example query_workout_type_table_gym :
  workouttype (storage (query_workout_type_table steady_clock reliable lenient (boot gym)).2)
  = workouttype gym ++
    [WorkoutType.mk (Some 1735689600000000) (Some 1735689640000000) (Some 2)
       "Strength Training" "Full Body" (Some "Weightlifting"%string)
       (Some "A high-intensity workout for muscle building."%string) None].
Proof. reflexivity. Qed.

(** C1.  With three exercises to read, a call that the storage carries
    out creates exactly nine [ExerciseLog] rows, three for each exercise
    in turn: sets 1 and 2 with 10 repetitions, set 3 with 8; every one
    of them rests 60 seconds at difficulty "Medium". *)
Theorem three_exercises_nine_logs (utc : nat -> datetime) (fails : nat -> bool)
    (foreign_keys : bool) (uid : Z) (s : State) :
  (forall i, fails i = false) ->
  Some uid ∈ keys_of (user (storage s)) ->
  Forall (fun e => is_Some (Exercise.exercise_id e)) (take 3 (exercise (storage s))) ->
  (3 <= length (exercise (storage s)))%nat ->
  exists s' e1 e2 e3 logs,
    create_workout_session utc fails foreign_keys uid s = (Ok tt, s') /\
    take 3 (exercise (storage s)) = [e1; e2; e3] /\
    exerciselog (storage s') = exerciselog (storage s) ++ logs /\
    length logs = 9%nat /\
    (fun l => (ExerciseLog.exercise_id l, ExerciseLog.set_number l,
               ExerciseLog.repetitions l)) <$> logs
    = [(Exercise.exercise_id e1, Some 1, Some 10);
       (Exercise.exercise_id e1, Some 2, Some 10);
       (Exercise.exercise_id e1, Some 3, Some 8);
       (Exercise.exercise_id e2, Some 1, Some 10);
       (Exercise.exercise_id e2, Some 2, Some 10);
       (Exercise.exercise_id e2, Some 3, Some 8);
       (Exercise.exercise_id e3, Some 1, Some 10);
       (Exercise.exercise_id e3, Some 2, Some 10);
       (Exercise.exercise_id e3, Some 3, Some 8)] /\
    Forall (fun l => ExerciseLog.rest_time l = Some 60 /\
                     ExerciseLog.difficulty_level l = Some "Medium"%string) logs.
Proof.
  intros Hf Hu Hk Hlen.
  destruct (create_workout_session_succeeds utc fails foreign_keys uid s Hf
              (fun _ => Hu) Hk) as [s1 Hok].
  destruct (create_workout_session_rows utc fails foreign_keys uid s)
    as (r & s' & sessions & logs & Hrun & Hst & Hcase).
  rewrite Hok in Hrun. injection Hrun as <- <-.
  destruct (exercise (storage s)) as [|e1 [|e2 [|e3 rest]]] eqn:Hex;
    cbn in Hlen; try lia.
  cbn [take] in Hcase.
  destruct Hcase as [(_ & _ & Hnil)|(_ & _ & _ & _ & _ & Hrows)];
    [by specialize (Hnil eq_refl)|].
  exists s1, e1, e2, e3, logs. split; [done|]. split; [done|].
  split; [by rewrite Hst|].
  split; [by rewrite <- (Forall2_length _ _ _ Hrows)|].
  split.
  - rewrite (stored_fmap
               (fun l => (ExerciseLog.exercise_id l, ExerciseLog.set_number l,
                          ExerciseLog.repetitions l))
               _ _ (fun _ _ => eq_refl) Hrows).
    reflexivity.
  - eapply stored_Forall; [|exact Hrows|].
    + intros k l H. exact H.
    + repeat constructor.
Qed.

(** C1 at the gym: four exercises are entered, the first three are
    logged. *)
Lemma three_exercises_nine_logs_witness :
  (forall i, reliable i = false) /\
  Some 1 ∈ keys_of (user (storage (boot gym))) /\
  Forall (fun e => is_Some (Exercise.exercise_id e))
    (take 3 (exercise (storage (boot gym)))) /\
  (3 <= length (exercise (storage (boot gym))))%nat /\
  exists s' logs,
    create_workout_session steady_clock reliable lenient 1 (boot gym) = (Ok tt, s') /\
    exerciselog (storage s') = logs /\ length logs = 9%nat.
Proof.
  assert (H1 : forall i, reliable i = false) by reflexivity.
  assert (H2 : Some 1 ∈ keys_of (user (storage (boot gym))))
    by apply list_elem_of_here.
  assert (H3 : Forall (fun e => is_Some (Exercise.exercise_id e))
                 (take 3 (exercise (storage (boot gym))))).
  { cbn. repeat apply Forall_cons_2; try apply Forall_nil_2; eexists; reflexivity. }
  assert (H4 : (3 <= length (exercise (storage (boot gym))))%nat) by (cbn; lia).
  split; [exact H1|]. split; [exact H2|]. split; [exact H3|]. split; [exact H4|].
  destruct (three_exercises_nine_logs steady_clock reliable lenient 1 (boot gym) H1 H2 H3 H4)
    as (s' & e1 & e2 & e3 & logs & Hrun & _ & Hlogs & Hlen & _).
  exists s', logs. split; [exact Hrun|]. split; [exact Hlogs|exact Hlen].
Defined.

(** C2.  A call is all or nothing: it leaves the storage as it found
    it, or it has returned normally and the storage holds one new
    session together with every one of its logs; a call that raises
    leaves the storage as it found it. *)
Theorem session_and_logs_together (utc : nat -> datetime) (fails : nat -> bool)
    (foreign_keys : bool) (uid : Z) (s : State) :
  let d := storage s in
  exists r s',
    create_workout_session utc fails foreign_keys uid s = (r, s') /\
    (forall e, r = Raise e -> storage s' = d) /\
    (storage s' = d \/
     (r = Ok tt /\
      exists ws logs,
        storage s' =
          with_exerciselog (exerciselog d ++ logs)
            (with_workoutsession (workoutsession d ++ [ws]) d) /\
        is_Some (WorkoutSession.session_id ws) /\
        (WorkoutSession.session_id ws ∉ keys_of (workoutsession d)) /\
        logs <> [] /\
        length logs = (length (take 3 (exercise d)) * 3)%nat /\
        Forall (fun l => ExerciseLog.session_id l = WorkoutSession.session_id ws)
          logs)).
Proof.
  intros d. subst d.
  destruct (create_workout_session_rows utc fails foreign_keys uid s)
    as (r & s' & sessions & logs & Hrun & Hst & Hcase).
  exists r, s'. split; [done|].
  destruct Hcase as [(-> & -> & _)|(-> & Hne & _ & _ & -> & Hrows)].
  { rewrite storage_unchanged in Hst. split; [done|by left]. }
  split; [done|]. right. split; [done|].
  eexists _, logs. split; [exact Hst|].
  split; [by eexists|]. split; [apply next_key_fresh|].
  pose proof (Forall2_length _ _ _ Hrows) as Hlen.
  rewrite log_objects_length in Hlen.
  split.
  { intros ->. destruct (take 3 (exercise (storage s))); [done|].
    cbn in Hlen. lia. }
  split; [done|].
  eapply stored_Forall; [|exact Hrows|].
  - intros k l H. exact H.
  - apply log_objects_Forall. reflexivity.
Qed.

(** The engine fails the sixth statement, an INSERT of the commit: the
    call raises and the gym is as it was. *)
Example failed_insert_rolls_back :
  let run := create_workout_session steady_clock (Nat.eqb 5) lenient 1 (boot gym) in
  run.1 = Raise OperationalError /\ storage run.2 = gym.
Proof. vm_compute. split; reflexivity. Qed.

(** C3 at the gym.  Before any exercise was entered, user 99 is not in
    the table and there is nothing to log, and yet the call returns
    normally, having printed a line and persisted nothing.  With the
    exercises entered and an engine that does not enforce foreign keys,
    the call for user 99 returns normally as well, and has persisted a
    session of a user the table does not hold, with its nine logs. *)
Lemma silent_return_counterexample :
  (Some 99 ∉ keys_of (user empty_gym)) /\
  exercise empty_gym = [] /\
  (exists s',
     create_workout_session steady_clock reliable lenient 99 (boot empty_gym)
     = (Ok tt, s') /\
     storage s' = empty_gym /\
     stdout s' = ["No exercises found. Please add exercises first."%string]) /\
  (Some 99 ∉ keys_of (user gym)) /\
  (exists s' ws logs,
     create_workout_session steady_clock reliable lenient 99 (boot gym)
     = (Ok tt, s') /\
     workoutsession (storage s') = [ws] /\
     WorkoutSession.user_id ws = Some 99 /\
     exerciselog (storage s') = logs /\ length logs = 9%nat).
Proof.
  assert (Hno : Some 99 ∉ [Some 1]).
  { intros H. apply elem_of_cons in H as [H|H]; [discriminate|].
    by apply elem_of_nil in H. }
  split; [exact Hno|]. split; [reflexivity|]. split.
  { eexists. split; [reflexivity|]. split; reflexivity. }
  split; [exact Hno|].
  eexists _, _, _. split; [vm_compute; reflexivity|].
  split; [reflexivity|]. split; [reflexivity|]. split; reflexivity.
Qed.

(** C3, as the code has it.  The function checks nothing itself.  With
    no exercise to read it prints a line and returns normally, nothing
    persisted.  With exercises and a user the table does not hold, it is
    the engine that decides: one that enforces foreign keys refuses the
    INSERT of the session and the call raises [IntegrityError], nothing
    persisted; one that does not lets the call return normally, with
    the session of that user and its logs persisted, when it carries
    out every statement and the exercises read have their keys. *)
Theorem no_precondition_error (utc : nat -> datetime) (fails : nat -> bool)
    (foreign_keys : bool) (uid : Z) (s : State) :
  fails (statements s) = false ->
  fails (S (statements s)) = false ->
  let d := storage s in
  exists r s',
    create_workout_session utc fails foreign_keys uid s = (r, s') /\
    (exercise d = [] ->
     r = Ok tt /\ storage s' = d /\
     stdout s' = stdout s ++ ["No exercises found. Please add exercises first."%string]) /\
    (exercise d <> [] -> Some uid ∉ keys_of (user d) -> storable uid ->
     foreign_keys = true ->
     r = Raise IntegrityError /\ storage s' = d /\ stdout s' = stdout s) /\
    (exercise d <> [] -> Some uid ∉ keys_of (user d) -> storable uid ->
     foreign_keys = false ->
     (forall i, fails i = false) ->
     Forall (fun e => is_Some (Exercise.exercise_id e)) (take 3 (exercise d)) ->
     r = Ok tt /\ stdout s' = stdout s /\
     exists ws logs,
       storage s' =
         with_exerciselog (exerciselog d ++ logs)
           (with_workoutsession (workoutsession d ++ [ws]) d) /\
       WorkoutSession.user_id ws = Some uid /\
       length logs = (length (take 3 (exercise d)) * 3)%nat /\
       Forall (fun l => ExerciseLog.session_id l = WorkoutSession.session_id ws)
         logs).
Proof.
  intros F0 F1 d. subst d.
  destruct (create_workout_session utc fails foreign_keys uid s) as [r s'] eqn:Hrun.
  exists r, s'. split; [reflexivity|]. split; [|split].
  - destruct s as [db h ss n k out]. cbn in F0, F1. cbn [storage stdout].
    unfold create_workout_session in Hrun. rewrite run_with_Session in Hrun.
    rewrite run_bind, run_query_Exercise_limit, F0 in Hrun.
    intros Hnone. rewrite Hnone in Hrun. cbn [take] in Hrun.
    injection Hrun as <- <-. done.
  - destruct s as [db h ss n k out]. cbn in F0, F1. cbn [storage stdout].
    unfold create_workout_session in Hrun. rewrite run_with_Session in Hrun.
    rewrite run_bind, run_query_Exercise_limit, F0 in Hrun.
    intros Hsome Huser _ ->.
    destruct (exercise db) as [|e0 table]; [done|].
    cbn [take] in Hrun. cbv beta iota in Hrun.
    rewrite run_bind, run_utcnow in Hrun. cbv beta iota in Hrun.
    rewrite run_bind, run_utcnow in Hrun. cbv beta iota in Hrun.
    rewrite run_bind, run_WorkoutSession_init in Hrun. cbv beta iota in Hrun.
    rewrite run_bind, run_session_add in Hrun by (cbn; apply not_elem_of_nil).
    cbv beta iota in Hrun. cbn [app] in Hrun.
    rewrite run_bind, (run_flush_session _ _ _ _ (session_object utc uid n)) in Hrun;
      [|apply lookup_end|by eexists].
    rewrite F1, insert_session_object in Hrun.
    rewrite (bool_decide_eq_false_2 _ Huser) in Hrun.
    injection Hrun as <- <-. done.
  - intros Hsome Huser _ -> Hf Hkeys.
    destruct (create_workout_session_outcome utc fails false uid s)
      as (r' & s'' & Hrun' & Hr).
    rewrite Hrun in Hrun'. injection Hrun' as <- <-.
    destruct r as [[]|e].
    + destruct Hr as [[Hnil _]|(_ & _ & _ & Hout & rows & Hst & Hrows & _)].
      { exfalso. destruct (exercise (storage s)); [done|discriminate Hnil]. }
      split; [done|]. split; [exact Hout|].
      eexists _, rows. split; [exact Hst|]. split; [reflexivity|].
      split.
      * rewrite <- (Forall2_length _ _ _ Hrows). apply log_objects_length.
      * eapply stored_Forall; [|exact Hrows|].
        -- intros k l H. exact H.
        -- apply log_objects_Forall. reflexivity.
    + exfalso. destruct Hr as [_ [(i & _ & Hi)|[[Hfk _]|Hex]]].
      * by rewrite Hf in Hi.
      * discriminate Hfk.
      * apply Exists_exists in Hex as (x & Hx & Hnone).
        rewrite Forall_forall in Hkeys. destruct (Hkeys x Hx) as [k Hk]. congruence.
Qed.

(** C3, as the code has it, at the gym: user 99 is not in the table. *)
Lemma no_precondition_error_witness :
  reliable (statements (boot gym)) = false /\
  reliable (S (statements (boot gym))) = false /\
  exercise (storage (boot gym)) <> [] /\
  (Some 99 ∉ keys_of (user (storage (boot gym)))) /\
  storable 99 /\
  (exists r s',
     create_workout_session steady_clock reliable strict 99 (boot gym) = (r, s') /\
     r = Raise IntegrityError /\ storage s' = gym) /\
  (exists r s',
     create_workout_session steady_clock reliable lenient 99 (boot gym) = (r, s') /\
     r = Ok tt /\ length (exerciselog (storage s')) = 9%nat).
Proof.
  assert (Hne : exercise (storage (boot gym)) <> []) by discriminate.
  assert (Hno : Some 99 ∉ keys_of (user (storage (boot gym)))).
  { intros H. apply elem_of_cons in H as [H|H]; [discriminate|].
    by apply elem_of_nil in H. }
  assert (H99 : storable 99) by (unfold storable; lia).
  split; [reflexivity|]. split; [reflexivity|]. split; [exact Hne|].
  split; [exact Hno|]. split; [exact H99|]. split.
  - destruct (no_precondition_error steady_clock reliable strict 99 (boot gym)
                eq_refl eq_refl) as (r & s' & Hrun & _ & Hraise & _).
    exists r, s'. split; [exact Hrun|].
    destruct (Hraise Hne Hno H99 eq_refl) as (Hr & Hst & _).
    split; [exact Hr|exact Hst].
  - destruct (no_precondition_error steady_clock reliable lenient 99 (boot gym)
                eq_refl eq_refl) as (r & s' & Hrun & _ & _ & Hstore).
    exists r, s'. split; [exact Hrun|].
    destruct Hstore as (Hr & _ & ws & logs & Hst & _ & Hlen & _);
      [exact Hne|exact Hno|exact H99|reflexivity|reflexivity| |].
    + cbn. repeat apply Forall_cons_2; try apply Forall_nil_2; eexists; reflexivity.
    + split; [exact Hr|]. rewrite Hst. cbn. exact Hlen.
Defined.

(** C4.  With no exercise to read, a call persists nothing and builds
    nothing: the storage and the heap are as it found them, whether the
    query succeeded or not. *)
Theorem no_exercises_no_rows (utc : nat -> datetime) (fails : nat -> bool)
    (foreign_keys : bool) (uid : Z) (s : State) :
  exercise (storage s) = [] ->
  exists r s',
    create_workout_session utc fails foreign_keys uid s = (r, s') /\
    storage s' = storage s /\
    heap s' = heap s /\
    transaction (session s') = storage s /\
    new (session s') = [].
Proof.
  intros Hnone. destruct s as [db h ss n k out]. cbn in Hnone.
  unfold create_workout_session. rewrite run_with_Session.
  rewrite run_bind, run_query_Exercise_limit, Hnone. cbn [take].
  destruct (fails k); eexists _, _; (split; [reflexivity|done]).
Qed.

(** C4 at the gym before any exercise was entered. *)
Lemma no_exercises_no_rows_witness :
  exercise (storage (boot empty_gym)) = [] /\
  exists r s',
    create_workout_session steady_clock reliable lenient 1 (boot empty_gym) = (r, s') /\
    storage s' = empty_gym /\ heap s' = [].
Proof.
  split; [reflexivity|].
  destruct (no_exercises_no_rows steady_clock reliable lenient 1 (boot empty_gym) eq_refl)
    as (r & s' & Hrun & Hst & Hheap & _).
  exists r, s'. split; [exact Hrun|]. split; [exact Hst|exact Hheap].
Defined.

(** C5.  Every [ExerciseLog] row a call creates references an exercise
    of the table, and weighs 50.0 when the primary muscle group of that
    exercise is Chest, Back or Legs and 25.0 when it is anything else,
    an unset group included. *)
Theorem weight_by_muscle_group (utc : nat -> datetime) (fails : nat -> bool)
    (foreign_keys : bool) (uid : Z) (s : State) :
  NoDup (keys_of (exercise (storage s))) ->
  exists r s' logs,
    create_workout_session utc fails foreign_keys uid s = (r, s') /\
    exerciselog (storage s') = exerciselog (storage s) ++ logs /\
    Forall (fun l =>
      (exists e, e ∈ exercise (storage s') /\
                 Exercise.exercise_id e = ExerciseLog.exercise_id l) /\
      forall e, e ∈ exercise (storage s') ->
        Exercise.exercise_id e = ExerciseLog.exercise_id l ->
        (Exercise.primary_muscle_group e ∈ [Some "Chest"; Some "Back"; Some "Legs"]%string ->
         ExerciseLog.weight l = Some 50%Q) /\
        (Exercise.primary_muscle_group e ∉ [Some "Chest"; Some "Back"; Some "Legs"]%string ->
         ExerciseLog.weight l = Some 25%Q)) logs.
Proof.
  intros Hnd.
  destruct (create_workout_session_rows utc fails foreign_keys uid s)
    as (r & s' & sessions & logs & Hrun & Hst & Hcase).
  exists r, s', logs. split; [done|]. split; [by rewrite Hst|].
  destruct Hcase as [(_ & -> & _)|(_ & _ & _ & _ & _ & Hrows)]; [constructor|].
  assert (Hex : exercise (storage s') = exercise (storage s)) by (by rewrite Hst).
  rewrite Hex.
  eapply stored_Forall; [|exact Hrows|].
  { intros k l H. exact H. }
  apply log_objects_Forall. intros e' j n He' _.
  assert (Hin : e' ∈ exercise (storage s)).
  { apply elem_of_take in He' as (i & Hi & _). by eapply list_elem_of_lookup_2. }
  split; [by exists e'|].
  intros e He Hid.
  assert (e = e') as -> by (eapply (NoDup_fmap_eq key); eauto).
  cbn [log_object ExerciseLog.weight]. split; intros Hg.
  - by rewrite (bool_decide_eq_true_2 _ Hg).
  - by rewrite (bool_decide_eq_false_2 _ Hg).
Qed.

(** C5 at the gym: the squat works the legs, the curl the biceps, the
    plank names no group. *)
Lemma weight_by_muscle_group_witness :
  NoDup (keys_of (exercise (storage (boot gym)))) /\
  exists r s' logs,
    create_workout_session steady_clock reliable lenient 1 (boot gym) = (r, s') /\
    exerciselog (storage s') = logs /\
    ExerciseLog.weight <$> logs
    = [Some 50%Q; Some 50%Q; Some 50%Q; Some 25%Q; Some 25%Q; Some 25%Q;
       Some 25%Q; Some 25%Q; Some 25%Q].
Proof.
  split; [exact gym_exercise_keys|].
  destruct (weight_by_muscle_group steady_clock reliable lenient 1 (boot gym)
              gym_exercise_keys) as (r & s' & logs & Hrun & Hlogs & _).
  exists r, s', logs. split; [exact Hrun|]. split; [exact Hlogs|].
  assert (Hs : s' = (create_workout_session steady_clock reliable lenient 1 (boot gym)).2)
    by (by rewrite Hrun).
  cbn in Hlogs. rewrite <- Hlogs, Hs. reflexivity.
Defined.

(** C10.  Whatever the exercise table holds, a call reads no more than
    its first three rows and creates at most nine [ExerciseLog] rows,
    three for each exercise it read. *)
Theorem at_most_nine_logs (utc : nat -> datetime) (fails : nat -> bool)
    (foreign_keys : bool) (uid : Z) (s : State) :
  exists r s' logs,
    create_workout_session utc fails foreign_keys uid s = (r, s') /\
    exerciselog (storage s') = exerciselog (storage s) ++ logs /\
    (length logs <= 9)%nat /\
    (length logs = 0%nat \/
     length logs = (length (take 3 (exercise (storage s))) * 3)%nat) /\
    Forall (fun l => exists e, e ∈ take 3 (exercise (storage s)) /\
                     ExerciseLog.exercise_id l = Exercise.exercise_id e) logs.
Proof.
  destruct (create_workout_session_rows utc fails foreign_keys uid s)
    as (r & s' & sessions & logs & Hrun & Hst & Hcase).
  exists r, s', logs. split; [done|]. split; [by rewrite Hst|].
  destruct Hcase as [(_ & -> & _)|(_ & _ & _ & _ & _ & Hrows)].
  { split; [cbn; lia|]. split; [by left|constructor]. }
  pose proof (Forall2_length _ _ _ Hrows) as Hlen.
  rewrite log_objects_length in Hlen.
  pose proof (length_take (exercise (storage s)) 3) as Hle.
  split; [lia|]. split; [by right|].
  eapply stored_Forall; [|exact Hrows|].
  - intros k l H. exact H.
  - apply log_objects_Forall. intros e j n He _. by exists e.
Qed.

(** * Durations and timestamps *)

(** [int] drops the fraction, which for a duration that is not negative
    is the floor. *)
Lemma minutes_floor (delta : Z) :
  0 <= delta ->
  int (total_seconds delta / inject_Z 60)%Q
  = Qfloor (total_seconds delta / inject_Z 60)%Q.
Proof.
  intros Hd. unfold int, total_seconds, Qfloor.
  cbn [Qdiv Qmult Qinv inject_Z Qnum Qden].
  apply Z.quot_div_nonneg; lia.
Qed.

Lemma steady_clock_monotone : monotone steady_clock.
Proof. intros i j Hij. unfold steady_clock. lia. Qed.

(** [int(delta.total_seconds() / 60)] is the quotient of the microseconds
    by those of a minute, rounded towards zero. *)
Lemma minutes_quot (delta : Z) :
  int (total_seconds delta / inject_Z 60)%Q = Z.quot delta 60000000.
Proof.
  unfold int, total_seconds. cbn [Qdiv Qmult Qinv inject_Z Qnum Qden].
  by rewrite Z.mul_1_r.
Qed.

Section Time.

Variable utc : nat -> datetime.
Variable fails : nat -> bool.
Variable foreign_keys : bool.

Lemma stamped_later {A : Type} `{BaseModel A} (n m : nat) (x : A) :
  monotone utc -> (n <= m)%nat -> stamped utc n x -> stamped utc m x.
Proof.
  intros Hmono Hnm (c & e & Hc & He & Hce & Hen). exists c, e.
  repeat split; try done. specialize (Hmono n m Hnm). lia.
Qed.

Lemma log_object_stamped sid e set_num n :
  monotone utc -> stamped utc (1 + n) (log_object utc sid e set_num n).
Proof.
  intros Hmono. exists (utc n), (utc (1 + n)). repeat split; [|lia].
  apply Hmono. lia.
Qed.

Lemma log_objects_stamped sid exs :
  monotone utc ->
  forall n, Forall (stamped utc (length exs * 6 + n)) (log_objects utc sid exs n).
Proof.
  intros Hmono.
  induction exs as [|e exs IH]; intros n; cbn [log_objects]; [constructor|].
  repeat apply Forall_cons_2.
  - eapply stamped_later; [done| |by apply log_object_stamped]. cbn. lia.
  - eapply stamped_later; [done| |by apply log_object_stamped]. cbn. lia.
  - eapply stamped_later; [done| |by apply log_object_stamped]. cbn. lia.
  - eapply Forall_impl; [apply IH|]. intros l Hl.
    eapply stamped_later; [done| |exact Hl]. cbn. lia.
Qed.





End Time.

(** C6 at the gym, by a clock that is set back half a minute between
    any two readings: the workout ends before it starts, and its
    [total_duration] is -10 where the floor of the minutes is -11. *)
Lemma backward_clock_counterexample :
  exists s' ws b e,
    create_workout_session rewinding_clock reliable lenient 1 (boot gym)
    = (Ok tt, s') /\
    workoutsession (storage s') = [ws] /\
    WorkoutSession.start_time ws = Some b /\
    WorkoutSession.end_time ws = Some e /\
    e < b /\
    WorkoutSession.total_duration ws = Some (-10) /\
    Qfloor (total_seconds (e - b) / inject_Z 60)%Q = -11.
Proof.
  eexists _, _, _, _. split; [vm_compute; reflexivity|].
  split; [reflexivity|]. split; [reflexivity|]. split; [reflexivity|].
  split; [vm_compute; reflexivity|]. split; vm_compute; reflexivity.
Qed.

(** C6, as the code has it.  The session a call persists has its start
    and its end, the end read after every log was built, and its
    [total_duration] is [int] of the minutes in between: the quotient
    rounded towards zero.  That is the floor when the end is not before
    the start, which a clock that never goes back makes sure of. *)
Theorem duration_is_whole_minutes (utc : nat -> datetime) (fails : nat -> bool)
    (foreign_keys : bool) (uid : Z) (s : State) :
  exists r s' sessions logs,
    create_workout_session utc fails foreign_keys uid s = (r, s') /\
    workoutsession (storage s') = workoutsession (storage s) ++ sessions /\
    exerciselog (storage s') = exerciselog (storage s) ++ logs /\
    Forall (fun ws =>
      exists b e,
        WorkoutSession.start_time ws = Some b /\
        WorkoutSession.end_time ws = Some e /\
        WorkoutSession.total_duration ws
        = Some (int (total_seconds (e - b) / inject_Z 60)%Q) /\
        WorkoutSession.total_duration ws = Some (Z.quot (e - b) 60000000) /\
        (b <= e ->
         WorkoutSession.total_duration ws
         = Some (Qfloor (total_seconds (e - b) / inject_Z 60)%Q)) /\
        (monotone utc ->
         b <= e /\
         Forall (fun l => exists t, edited l = Some t /\ t <= e) logs)) sessions.
Proof.
  destruct (create_workout_session_rows utc fails foreign_keys uid s)
    as (r & s' & sessions & logs & Hrun & Hst & Hcase).
  exists r, s', sessions, logs. split; [done|].
  split; [by rewrite Hst|]. split; [by rewrite Hst|].
  destruct Hcase as [(-> & _)|(_ & _ & _ & _ & -> & Hrows)]; [constructor|].
  set (n := utcnow_calls s) in *. set (m := length (take 3 (exercise (storage s)))) in *.
  repeat constructor.
  exists (utc (1 + n)%nat), (utc (4 + (m * 6 + n))%nat).
  split; [reflexivity|]. split; [reflexivity|]. split; [reflexivity|].
  split; [cbn [session_row WorkoutSession.total_duration]; by rewrite minutes_quot|].
  split.
  - intros Hle. cbn [session_row WorkoutSession.total_duration].
    rewrite minutes_floor by lia. reflexivity.
  - intros utc_monotone. split; [apply utc_monotone; lia|].
    eapply stored_Forall; [|exact Hrows|].
    + intros k l H. exact H.
    + eapply Forall_impl; [apply (log_objects_stamped utc _ _ utc_monotone)|].
      intros l (c & e & _ & He & _ & Hen). exists e. split; [exact He|].
      fold m in Hen.
      replace (4 + (m * 6 + n))%nat with (m * 6 + (4 + n))%nat by lia. exact Hen.
Qed.

(** C6, as the code has it, at the gym by the steady clock: the workout
    took fourteen minutes. *)
Lemma duration_is_whole_minutes_witness :
  monotone steady_clock /\
  exists r s' sessions,
    create_workout_session steady_clock reliable lenient 1 (boot gym) = (r, s') /\
    workoutsession (storage s') = sessions /\
    WorkoutSession.total_duration <$> sessions = [Some 14].
Proof.
  split; [exact steady_clock_monotone|].
  destruct (duration_is_whole_minutes steady_clock reliable lenient 1 (boot gym))
    as (r & s' & sessions & logs & Hrun & Hss & _).
  exists r, s', sessions. split; [exact Hrun|]. split; [exact Hss|].
  assert (Hs : s' = (create_workout_session steady_clock reliable lenient 1
                       (boot gym)).2)
    by (by rewrite Hrun).
  cbn in Hss. rewrite <- Hss, Hs. reflexivity.
Defined.




(** * Consistency *)

(** ** References *)

Lemma check_exercise_Ok x d : check_exercise true x d = Ok tt <-> exercise_ok d x.
Proof.
  unfold check_exercise, exercise_ok, foreign_key.
  destruct (Exercise.workout_type_id x) as [t|]; [|by split; auto].
  destruct (bool_decide (Some t ∈ keys_of (workouttype d))) eqn:Ht.
  - apply bool_decide_eq_true in Ht. split; auto.
  - apply bool_decide_eq_false in Ht. split; [done|]. by intros [|].
Qed.

Lemma check_workoutsession_Ok x d :
  check_workoutsession true x d = Ok tt <-> workoutsession_ok d x.
Proof.
  unfold check_workoutsession, workoutsession_ok, foreign_key, not_null.
  cbv [mbind Result_bind].
  destruct (WorkoutSession.user_id x) as [u|].
  - destruct (bool_decide (Some u ∈ keys_of (user d))) eqn:Hu.
    + apply bool_decide_eq_true in Hu. split; [|done]. intros _. split; [by eexists|done].
    + apply bool_decide_eq_false in Hu. split; [done|]. by intros [_ ?].
  - split; [done|]. intros [[u Hu] _]. done.
Qed.

Lemma check_exerciselog_iff x d :
  check_exerciselog true x d = Ok tt <-> exerciselog_ok d x.
Proof.
  split; [apply check_exerciselog_Ok|].
  unfold check_exerciselog, exerciselog_ok, foreign_key, not_null.
  cbv [mbind Result_bind].
  intros ([sk Hsk] & Hs & [ek Hek] & He). rewrite Hsk, Hek in *.
  by rewrite (bool_decide_eq_true_2 _ Hs), (bool_decide_eq_true_2 _ He).
Qed.

Lemma exercise_ok_grows d d' x : grows d d' -> exercise_ok d x -> exercise_ok d' x.
Proof. intros (_ & Hw & _) [H|H]; [by left|right]. by apply Hw. Qed.

Lemma workoutsession_ok_grows d d' x :
  grows d d' -> workoutsession_ok d x -> workoutsession_ok d' x.
Proof. intros (Hu & _) [H1 H2]. split; [done|by apply Hu]. Qed.

Lemma exerciselog_ok_grows d d' x :
  grows d d' -> exerciselog_ok d x -> exerciselog_ok d' x.
Proof.
  intros (_ & _ & He & Hs) (H1 & H2 & H3 & H4).
  repeat split; [done|by apply Hs|done|by apply He].
Qed.

Lemma Forall_grows {A : Type} (P Q : A -> Prop) (rows rows' : list A) :
  Forall P rows -> (forall x, P x -> Q x) ->
  (forall x, x ∈ rows' -> x ∈ rows \/ Q x) -> Forall Q rows'.
Proof.
  intros HP HPQ Hin. apply Forall_forall. intros x Hx.
  destruct (Hin x Hx) as [Hold|Hnew]; [|done].
  rewrite Forall_forall in HP. auto.
Qed.

(** Tables that know the old keys, keep their keys unique and whose
    rows are the old rows or rows in order, are consistent. *)
Lemma consistent_step d d' :
  consistent d -> grows d d' ->
  keys_unique (user d') -> keys_unique (workouttype d') ->
  keys_unique (exercise d') -> keys_unique (workoutsession d') ->
  keys_unique (exerciselog d') ->
  (forall x, x ∈ exercise d' -> x ∈ exercise d \/ exercise_ok d' x) ->
  (forall x, x ∈ workoutsession d' -> x ∈ workoutsession d \/ workoutsession_ok d' x) ->
  (forall x, x ∈ exerciselog d' -> x ∈ exerciselog d \/ exerciselog_ok d' x) ->
  consistent d'.
Proof.
  intros [] Hg; intros. constructor; try done.
  - eapply Forall_grows; [eassumption| |done]. intros x. by apply exercise_ok_grows.
  - eapply Forall_grows; [eassumption| |done]. intros x. by apply workoutsession_ok_grows.
  - eapply Forall_grows; [eassumption| |done]. intros x. by apply exerciselog_ok_grows.
Qed.

(** ** INSERT and UPDATE keep the tables consistent *)

Lemma subseteq_snoc {A : Type} (l : list A) (x : A) : l ⊆ l ++ [x].
Proof. intros y Hy. apply elem_of_app. by left. Qed.

Lemma elem_of_snoc {A : Type} (l : list A) (x y : A) :
  y ∈ l ++ [x] -> y ∈ l \/ y = x.
Proof.
  intros Hy. apply elem_of_app in Hy as [Hy|Hy]; [by left|right].
  by apply list_elem_of_singleton in Hy.
Qed.

Lemma elem_of_replace_row {A : Type} `{BaseModel A} (x y : A) (rows : list A) :
  y ∈ replace_row x rows -> y ∈ rows \/ y = x.
Proof.
  unfold replace_row. intros Hy. apply list_elem_of_fmap in Hy as (row & -> & Hrow).
  destruct (bool_decide (key row = key x)); [by right|by left].
Qed.

Ltac tables :=
  unfold with_user, with_workouttype, with_exercise, with_workoutsession,
    with_exerciselog;
  cbn [user workouttype exercise workoutsession exerciselog].

Ltac grown :=
  unfold grows; tables; rewrite ?keys_of_snoc, ?keys_of_replace_row;
  split_and!; (reflexivity || apply subseteq_snoc).

Ltac fresh_keys Hc Hfresh :=
  tables; unfold keys_unique; rewrite keys_of_snoc; cbn;
  apply keys_unique_snoc; [apply Hc|exact Hfresh].

Lemma insert_user_consistent x d row d' :
  consistent d -> insert_user x d = Ok (row, d') -> consistent d'.
Proof.
  intros Hc Hins. unfold insert_user, check_user in Hins.
  cbv [mbind Result_bind] in Hins.
  destruct (primary_key _ _) as [k|] eqn:Hpk; [|done]. injection Hins as <- <-.
  apply primary_key_Ok in Hpk as [Hfresh _].
  apply (consistent_step d); try (cbn; apply Hc); try (cbn; by left).
  - grown.
  - fresh_keys Hc Hfresh.
Qed.

Lemma insert_workouttype_consistent x d row d' :
  consistent d -> insert_workouttype x d = Ok (row, d') -> consistent d'.
Proof.
  intros Hc Hins. unfold insert_workouttype, check_workouttype in Hins.
  cbv [mbind Result_bind] in Hins.
  destruct (primary_key _ _) as [k|] eqn:Hpk; [|done]. injection Hins as <- <-.
  apply primary_key_Ok in Hpk as [Hfresh _].
  apply (consistent_step d); try (cbn; apply Hc); try (cbn; by left).
  - grown.
  - fresh_keys Hc Hfresh.
Qed.

Lemma insert_exercise_consistent x d row d' :
  consistent d -> insert_exercise true x d = Ok (row, d') -> consistent d'.
Proof.
  intros Hc Hins. unfold insert_exercise in Hins.
  cbv [mbind Result_bind] in Hins.
  destruct (primary_key _ _) as [k|] eqn:Hpk; [|done].
  destruct (check_exercise true x d) as [[]|] eqn:Hchk; [|done]. injection Hins as <- <-.
  apply primary_key_Ok in Hpk as [Hfresh _]. apply check_exercise_Ok in Hchk.
  apply (consistent_step d); try (cbn; apply Hc); try (cbn; by left).
  - grown.
  - fresh_keys Hc Hfresh.
  - cbn. intros y Hy. apply elem_of_snoc in Hy as [Hy| ->]; [by left|right].
    exact Hchk.
Qed.

Lemma insert_workoutsession_consistent x d row d' :
  consistent d -> insert_workoutsession true x d = Ok (row, d') -> consistent d'.
Proof.
  intros Hc Hins. unfold insert_workoutsession in Hins.
  cbv [mbind Result_bind] in Hins.
  destruct (primary_key _ _) as [k|] eqn:Hpk; [|done].
  destruct (check_workoutsession true x d) as [[]|] eqn:Hchk; [|done].
  injection Hins as <- <-.
  apply primary_key_Ok in Hpk as [Hfresh _]. apply check_workoutsession_Ok in Hchk.
  apply (consistent_step d); try (cbn; apply Hc); try (cbn; by left).
  - grown.
  - fresh_keys Hc Hfresh.
  - cbn. intros y Hy. apply elem_of_snoc in Hy as [Hy| ->]; [by left|right].
    exact Hchk.
Qed.

Lemma insert_exerciselog_consistent x d row d' :
  consistent d -> insert_exerciselog true x d = Ok (row, d') -> consistent d'.
Proof.
  intros Hc Hins. unfold insert_exerciselog in Hins.
  cbv [mbind Result_bind] in Hins.
  destruct (primary_key _ _) as [k|] eqn:Hpk; [|done].
  destruct (check_exerciselog true x d) as [[]|] eqn:Hchk; [|done].
  injection Hins as <- <-.
  apply primary_key_Ok in Hpk as [Hfresh _]. apply check_exerciselog_iff in Hchk.
  apply (consistent_step d); try (cbn; apply Hc); try (cbn; by left).
  - grown.
  - fresh_keys Hc Hfresh.
  - cbn. intros y Hy. apply elem_of_snoc in Hy as [Hy| ->]; [by left|right].
    exact Hchk.
Qed.

Ltac same_keys Hc :=
  tables; unfold keys_unique; rewrite keys_of_replace_row; apply Hc.

Lemma update_user_consistent x d d' :
  consistent d -> update_user x d = Ok d' -> consistent d'.
Proof.
  intros Hc Hup. unfold update_user, check_user in Hup.
  cbv [mbind Result_bind] in Hup. injection Hup as <-.
  apply (consistent_step d); try (cbn; apply Hc); try (cbn; by left).
  - grown.
  - same_keys Hc.
Qed.

Lemma update_workouttype_consistent x d d' :
  consistent d -> update_workouttype x d = Ok d' -> consistent d'.
Proof.
  intros Hc Hup. unfold update_workouttype, check_workouttype in Hup.
  cbv [mbind Result_bind] in Hup. injection Hup as <-.
  apply (consistent_step d); try (cbn; apply Hc); try (cbn; by left).
  - grown.
  - same_keys Hc.
Qed.

Lemma update_exercise_consistent x d d' :
  consistent d -> update_exercise true x d = Ok d' -> consistent d'.
Proof.
  intros Hc Hup. unfold update_exercise in Hup. cbv [mbind Result_bind] in Hup.
  destruct (check_exercise true x d) as [[]|] eqn:Hchk; [|done]. injection Hup as <-.
  apply check_exercise_Ok in Hchk.
  apply (consistent_step d); try (cbn; apply Hc); try (cbn; by left).
  - grown.
  - same_keys Hc.
  - cbn. intros y Hy. apply elem_of_replace_row in Hy as [Hy| ->]; [by left|right].
    exact Hchk.
Qed.

Lemma update_workoutsession_consistent x d d' :
  consistent d -> update_workoutsession true x d = Ok d' -> consistent d'.
Proof.
  intros Hc Hup. unfold update_workoutsession in Hup. cbv [mbind Result_bind] in Hup.
  destruct (check_workoutsession true x d) as [[]|] eqn:Hchk; [|done]. injection Hup as <-.
  apply check_workoutsession_Ok in Hchk.
  apply (consistent_step d); try (cbn; apply Hc); try (cbn; by left).
  - grown.
  - same_keys Hc.
  - cbn. intros y Hy. apply elem_of_replace_row in Hy as [Hy| ->]; [by left|right].
    exact Hchk.
Qed.

Lemma update_exerciselog_consistent x d d' :
  consistent d -> update_exerciselog true x d = Ok d' -> consistent d'.
Proof.
  intros Hc Hup. unfold update_exerciselog in Hup. cbv [mbind Result_bind] in Hup.
  destruct (check_exerciselog true x d) as [[]|] eqn:Hchk; [|done]. injection Hup as <-.
  apply check_exerciselog_iff in Hchk.
  apply (consistent_step d); try (cbn; apply Hc); try (cbn; by left).
  - grown.
  - same_keys Hc.
  - cbn. intros y Hy. apply elem_of_replace_row in Hy as [Hy| ->]; [by left|right].
    exact Hchk.
Qed.
(** ** What a computation keeps *)

Ltac open_step :=
  cbv [mbind M_bind lift deref put_transaction get_session put_session write
       mret M_ret utcnow execute];
  cbn [heap session utcnow_calls statements stdout storage transaction
       with_heap with_session with_utcnow_calls with_statements with_transaction].

Section Keeps.

Lemma keeps_ret {A : Type} I (a : A) : keeps I (mret a : M A).
Proof. intros s H. exact H. Qed.

Lemma keeps_raise {A : Type} I e : keeps I (raise e : M A).
Proof. intros s H. exact H. Qed.

Lemma keeps_bind {A B : Type} I (m : M A) (f : A -> M B) :
  keeps I m -> (forall a, keeps I (f a)) -> keeps I (m ≫= f).
Proof.
  intros Hm Hf s H. rewrite run_bind. specialize (Hm s H).
  destruct (m s) as [[a|e] s1]; [|exact Hm]. by apply Hf.
Qed.

Lemma keeps_for_each {A : Type} I (l : list A) (body : A -> M unit) :
  (forall x, keeps I (body x)) -> keeps I (for_each l body).
Proof.
  intros Hb. induction l as [|x l IH]; [apply keeps_ret|].
  cbn [for_each]. apply keeps_bind; auto.
Qed.

End Keeps.

Lemma gym_consistent : consistent gym.
Proof.
  assert (Hno : forall k (keys : list (option Z)),
            bool_decide (Some k ∈ keys) = false -> Some k ∉ keys).
  { intros k keys H. by apply bool_decide_eq_false in H. }
  constructor; cbn.
  1-5: split; cbn;
    repeat first [apply NoDup_nil_2 | apply NoDup_cons_2 | apply Forall_nil_2
                 | apply Forall_cons_2 | by eexists | by apply Hno].
  - repeat first [apply Forall_nil_2 | apply Forall_cons_2];
      right; apply list_elem_of_here.
  - apply Forall_nil_2.
  - apply Forall_nil_2.
Qed.


(** * The first example: one more workout type *)

Section WorkoutTypes.

Variable utc : nat -> datetime.
Variable fails : nat -> bool.
Variable foreign_keys : bool.

Lemma run_insert_WorkoutType r x db h tx nw idm dt n k out :
  h !! r = Some (AWorkoutType x) ->
  is_Some (WorkoutType.created_timestamp x) ->
  insert_object utc fails foreign_keys r (mkState db h (mkSession tx nw idm dt) n k out) =
  if fails k
  then (Raise OperationalError, mkState db h (mkSession tx nw idm dt) n (S k) out)
  else match insert_workouttype x tx with
       | Ok (row, d) =>
           (Ok tt, mkState db (<[r := AWorkoutType row]> h)
                     (mkSession d nw idm dt) n (S k) out)
       | Raise e => (Raise e, mkState db h (mkSession tx nw idm dt) n (S k) out)
       end.
Proof.
  intros Hr [c Hc]. unfold insert_object, deref, column_defaults, default_created.
  cbv [mbind M_bind lift]. cbn. rewrite Hr. cbn. rewrite Hc. cbn.
  destruct (fails k); [reflexivity|]. cbn.
  destruct (insert_workouttype x tx) as [[row d]|e]; reflexivity.
Qed.

Lemma run_WorkoutType_init name group cat descr level db h ss n k out :
  WorkoutType_init utc None None name group cat descr level (mkState db h ss n k out) =
  (Ok (length h),
   mkState db
     (h ++ [AWorkoutType
              (WorkoutType.mk (Some (utc n)) (Some (utc (S n))) None name group cat
                 descr level)])
     ss (S (S n)) k out).
Proof. reflexivity. Qed.

(** Every run of [query_workout_type_table]: two readings of the clock,
    then an INSERT and a COMMIT. *)
Lemma run_query_workout_type_table db h ss n k out :
  let row := workout_row utc (next_key (keys_of (workouttype db))) n in
  let db' := with_workouttype (workouttype db ++ [row]) db in
  query_workout_type_table utc fails foreign_keys (mkState db h ss n k out) =
  if fails k
  then (Raise OperationalError,
        mkState db
          (h ++ [AWorkoutType
                   (WorkoutType.mk (Some (utc n)) (Some (utc (S n))) None
                      "Strength Training" "Full Body" (Some "Weightlifting"%string)
                      (Some "A high-intensity workout for muscle building."%string)
                      None)])
          (open_session db) (S (S n)) (S k) out)
  else if fails (S k)
  then (Raise OperationalError,
        mkState db (h ++ [AWorkoutType row]) (open_session db) (S (S n)) (S (S k)) out)
  else (Ok tt,
        mkState db' (h ++ [AWorkoutType row]) (open_session db') (S (S n)) (S (S k)) out).
Proof.
  cbv zeta. unfold query_workout_type_table. rewrite run_with_Session.
  rewrite run_bind, run_WorkoutType_init. cbv beta iota.
  rewrite run_bind, run_session_add by (cbn; apply not_elem_of_nil).
  cbv beta iota. cbn [app].
  unfold session_commit, session_flush.
  cbv [mbind M_bind mret M_ret get_session put_session for_each].
  cbn [session dirty new transaction identity_map].
  erewrite run_insert_WorkoutType; [|apply lookup_end|by eexists].
  destruct (fails k); [reflexivity|].
  unfold insert_workouttype. cbv [mbind Result_bind primary_key check_workouttype].
  cbn [key WorkoutType_model WorkoutType.workout_type_id keyed WorkoutType.with_key].
  cbv beta iota. rewrite insert_end. cbn [app session transaction].
  unfold execute, with_session.
  cbn [storage heap session utcnow_calls statements stdout].
  destruct (fails (S k)); reflexivity.
Qed.

End WorkoutTypes.


(** * The second example: more on what it stores *)

Section Stored.

Variable utc : nat -> datetime.
Variable fails : nat -> bool.
Variable foreign_keys : bool.

Lemma take_nonempty {A : Type} (n : nat) (l : list A) :
  l <> [] -> take (S n) l <> [].
Proof. by destruct l. Qed.

(** A call that returns with exercises in the table has stored the
    session and the logs. *)
Lemma create_workout_session_stored uid s s' :
  create_workout_session utc fails foreign_keys uid s = (Ok tt, s') ->
  exercise (storage s) <> [] ->
  let d := storage s in
  let exs := take 3 (exercise d) in
  let sk := next_key (keys_of (workoutsession d)) in
  exists logs,
    storage s' =
      with_exerciselog (exerciselog d ++ logs)
        (with_workoutsession
           (workoutsession d ++ [session_row utc uid sk (utcnow_calls s) (length exs)])
           d) /\
    (foreign_keys = true -> Some uid ∈ keys_of (user d)) /\
    Forall2 (fun l row => exists key, row = keyed key l)
      (log_objects utc (Some sk) exs (4 + utcnow_calls s)) logs.
Proof.
  intros Hrun Hne d exs sk.
  destruct (create_workout_session_rows utc fails foreign_keys uid s)
    as (r & s1 & sessions & logs & Hrun' & Hst & Hcase).
  rewrite Hrun in Hrun'. injection Hrun' as <- <-.
  destruct Hcase as [(_ & _ & Hnil)|(_ & _ & Hu & _ & -> & Hrows)].
  - exfalso. by apply (take_nonempty 2 _ Hne), Hnil.
  - by exists logs.
Qed.

(** Where in the readings of the clock the timestamps of the logs lie. *)
Lemma log_objects_readings sid exs : forall n,
  Forall (fun l => exists i, (n <= i < length exs * 6 + n)%nat /\
                     created l = Some (utc i) /\ edited l = Some (utc (1 + i)))
    (log_objects utc sid exs n).
Proof.
  induction exs as [|e exs IH]; intros n; cbn [log_objects length]; [constructor|].
  repeat apply Forall_cons_2.
  - exists n. split; [lia|done].
  - exists (2 + n)%nat. split; [lia|done].
  - exists (4 + n)%nat. split; [lia|done].
  - eapply Forall_impl; [apply (IH (6 + n)%nat)|].
    intros l (i & Hi & Hl). exists i. split; [lia|done].
Qed.

Lemma log_objects_session sid exs : forall n,
  Forall (fun l => ExerciseLog.session_id l = sid) (log_objects utc sid exs n).
Proof. apply log_objects_Forall. reflexivity. Qed.

Lemma log_objects_exercises sid exs : forall n,
  ExerciseLog.exercise_id <$> log_objects utc sid exs n
  = exs ≫= (fun e => replicate 3 (Exercise.exercise_id e)).
Proof.
  induction exs as [|e exs IH]; intros n; [done|].
  cbn [log_objects fmap list_fmap]. rewrite bind_cons. cbn [replicate app].
  do 3 f_equal. apply IH.
Qed.

(** A call leaves the storage consistent when the session it stores
    has its user: the engine has looked, or the user is there. *)
Lemma create_workout_session_consistent uid s :
  consistent (storage s) ->
  foreign_keys = true \/ Some uid ∈ keys_of (user (storage s)) ->
  consistent (storage (create_workout_session utc fails foreign_keys uid s).2).
Proof.
  intros Hc Hu.
  destruct (create_workout_session_outcome utc fails foreign_keys uid s)
    as (r & s' & Hrun & Hr).
  rewrite Hrun. cbn [snd].
  destruct r as [[]|e]; [|destruct Hr as [-> _]; exact Hc].
  destruct Hr as [[_ ->]|(Hne & Hfk & Hk & _ & rows & Hst & Hrows & Hkeys)];
    [exact Hc|].
  rewrite Hst. clear Hst Hrun s'.
  set (d := storage s) in *.
  set (sk := next_key (keys_of (workoutsession d))) in *.
  assert (Huser : Some uid ∈ keys_of (user d)) by (destruct Hu; auto).
  apply (consistent_step d); try (cbn; apply Hc); try (cbn; by left).
  - grown.
  - cbn. eapply keys_unique_fresh; [reflexivity|apply next_key_fresh|apply Hc].
  - cbn. apply Hkeys, Hc.
  - cbn. intros y Hy. apply elem_of_snoc in Hy as [Hy| ->]; [by left|right].
    split; [by eexists|exact Huser].
  - cbn [exerciselog with_exerciselog]. intros y Hy.
    apply elem_of_app in Hy as [Hy|Hy]; [by left|right].
    revert y Hy. apply Forall_forall.
    eapply stored_Forall; [|exact Hrows|].
    { intros k l H. exact H. }
    apply log_objects_Forall. intros e set_num n He _.
    rewrite Forall_forall in Hk. destruct (Hk e He) as [ek Hek].
    unfold exerciselog_ok. cbn. split_and!.
    + by eexists.
    + rewrite fmap_app. apply elem_of_app. right. by apply list_elem_of_singleton.
    + by eexists.
    + apply list_elem_of_fmap. exists e. split; [done|].
      eapply subseteq_take. exact He.
Qed.

(** With an engine that does not look, the session of a user who is not
    there breaks the consistency of the storage. *)
Lemma create_workout_session_dangling uid s :
  foreign_keys = false ->
  (forall i, fails i = false) ->
  exercise (storage s) <> [] ->
  Forall (fun e => is_Some (Exercise.exercise_id e)) (take 3 (exercise (storage s))) ->
  Some uid ∉ keys_of (user (storage s)) ->
  ~ consistent (storage (create_workout_session utc fails foreign_keys uid s).2).
Proof.
  intros Hfk Hf Hne Hk Hu Hc.
  destruct (create_workout_session_succeeds utc fails foreign_keys uid s Hf)
    as [s' Hrun]; [by rewrite Hfk|exact Hk|].
  rewrite Hrun in Hc. cbn [snd] in Hc.
  destruct (create_workout_session_stored uid s s' Hrun Hne) as (logs & Hst & _).
  rewrite Hst in Hc. apply workoutsession_refs in Hc. cbn in Hc.
  apply Forall_app in Hc as [_ Hc]. apply Forall_singleton in Hc as [_ Hc].
  by apply Hu.
Qed.

End Stored.

(** X1.  With the foreign keys enforced, an INSERT or an UPDATE that a
    table accepts leaves consistent tables consistent: keys stay unique
    and set, and every reference still names a row. *)
Theorem accepted_writes_keep_consistency (d : Database) :
  consistent d ->
  (forall x row d', insert_user x d = Ok (row, d') -> consistent d') /\
  (forall x row d', insert_workouttype x d = Ok (row, d') -> consistent d') /\
  (forall x row d', insert_exercise true x d = Ok (row, d') -> consistent d') /\
  (forall x row d', insert_workoutsession true x d = Ok (row, d') -> consistent d') /\
  (forall x row d', insert_exerciselog true x d = Ok (row, d') -> consistent d') /\
  (forall x d', update_user x d = Ok d' -> consistent d') /\
  (forall x d', update_workouttype x d = Ok d' -> consistent d') /\
  (forall x d', update_exercise true x d = Ok d' -> consistent d') /\
  (forall x d', update_workoutsession true x d = Ok d' -> consistent d') /\
  (forall x d', update_exerciselog true x d = Ok d' -> consistent d').
Proof.
  intros Hc. split_and!; intros.
  - by eapply insert_user_consistent.
  - by eapply insert_workouttype_consistent.
  - by eapply insert_exercise_consistent.
  - by eapply insert_workoutsession_consistent.
  - by eapply insert_exerciselog_consistent.
  - by eapply update_user_consistent.
  - by eapply update_workouttype_consistent.
  - by eapply update_exercise_consistent.
  - by eapply update_workoutsession_consistent.
  - by eapply update_exerciselog_consistent.
Qed.

(** X1 at the gym: a new exercise of workout type 1. *)
Lemma accepted_writes_keep_consistency_witness :
  consistent gym /\
  exists row d',
    insert_exercise true (gym_exercise 5 "Row" (Some "Back"%string)) gym = Ok (row, d') /\
    consistent d'.
Proof.
  split; [exact gym_consistent|].
  eexists _, _. split; [reflexivity|].
  eapply (proj1 (proj2 (proj2 (accepted_writes_keep_consistency gym gym_consistent)))
            (gym_exercise 5 "Row" (Some "Back"%string))).
  reflexivity.
Defined.

(** X2.  [create_workout_session] leaves a consistent storage
    consistent, whatever the clock reads, whichever statements fail and
    whether it returns or raises, as long as the engine enforces the
    foreign keys or the user is in the table.  With an engine that does
    not enforce them and carries out every statement, a call for a user
    who is not in the table, over exercises that have their keys, leaves
    a storage that is not consistent: its new session names nobody. *)
Theorem create_workout_session_keeps_consistency (utc : nat -> datetime)
    (fails : nat -> bool) (foreign_keys : bool) (uid : Z) (s : State) :
  consistent (storage s) ->
  let d' := storage (create_workout_session utc fails foreign_keys uid s).2 in
  (foreign_keys = true \/ Some uid ∈ keys_of (user (storage s)) -> consistent d') /\
  (foreign_keys = false ->
   (forall i, fails i = false) ->
   exercise (storage s) <> [] ->
   Forall (fun e => is_Some (Exercise.exercise_id e)) (take 3 (exercise (storage s))) ->
   Some uid ∉ keys_of (user (storage s)) ->
   ~ consistent d').
Proof.
  intros Hc. cbv zeta. split.
  - by apply create_workout_session_consistent.
  - by apply create_workout_session_dangling.
Qed.

(** X2 at the gym: user 1 is there and nobody has the key 99. *)
Lemma create_workout_session_keeps_consistency_witness :
  consistent (storage (boot gym)) /\
  consistent (storage (create_workout_session steady_clock reliable lenient 1 (boot gym)).2) /\
  ~ consistent (storage (create_workout_session steady_clock reliable lenient 99 (boot gym)).2).
Proof.
  split; [exact gym_consistent|]. split.
  - apply (create_workout_session_keeps_consistency steady_clock reliable lenient 1
             (boot gym) gym_consistent).
    right. apply list_elem_of_here.
  - apply (create_workout_session_keeps_consistency steady_clock reliable lenient 99
             (boot gym) gym_consistent).
    + reflexivity.
    + reflexivity.
    + discriminate.
    + repeat constructor; by eexists.
    + intros H. apply elem_of_cons in H as [H|H]; [discriminate|].
      by apply elem_of_nil in H.
Defined.

(** X3.  [query_workout_type_table] leaves a consistent storage
    consistent, whatever the clock reads, whichever statements fail,
    whether the engine enforces the foreign keys and whether the call
    returns or raises. *)
Theorem query_workout_type_table_keeps_consistency (utc : nat -> datetime)
    (fails : nat -> bool) (foreign_keys : bool) (s : State) :
  consistent (storage s) ->
  consistent (storage (query_workout_type_table utc fails foreign_keys s).2).
Proof.
  intros Hc. destruct s as [db h ss n k out]. cbn [storage] in Hc.
  rewrite run_query_workout_type_table.
  destruct (fails k); [exact Hc|]. destruct (fails (S k)); [exact Hc|].
  cbn [snd storage].
  apply (insert_workouttype_consistent
           (WorkoutType.mk (Some (utc n)) (Some (utc (S n))) None "Strength Training"
              "Full Body" (Some "Weightlifting"%string)
              (Some "A high-intensity workout for muscle building."%string) None)
           db (workout_row utc (next_key (keys_of (workouttype db))) n));
    [exact Hc|reflexivity].
Qed.

Lemma query_workout_type_table_keeps_consistency_witness :
  consistent (storage (boot gym)) /\
  consistent (storage (query_workout_type_table steady_clock reliable lenient (boot gym)).2).
Proof.
  split; [exact gym_consistent|].
  exact (query_workout_type_table_keeps_consistency steady_clock reliable lenient (boot gym)
           gym_consistent).
Defined.

(** X4.  [query_workout_type_table] sends two statements, an INSERT and
    a COMMIT.  When the engine carries out both, the call returns and
    the storage has exactly one more workout type, the row of the
    example under the next key of the table; when it fails either, the
    call raises [OperationalError] and the storage is as it was.  Nothing
    is printed, and what the table already held plays no part. *)
Theorem query_workout_type_table_outcome (utc : nat -> datetime)
    (fails : nat -> bool) (foreign_keys : bool) (s : State) :
  let d := storage s in
  let k := statements s in
  let row := workout_row utc (next_key (keys_of (workouttype d))) (utcnow_calls s) in
  exists r s',
    query_workout_type_table utc fails foreign_keys s = (r, s') /\
    stdout s' = stdout s /\
    utcnow_calls s' = (2 + utcnow_calls s)%nat /\
    (if fails k || fails (S k)
     then r = Raise OperationalError /\ storage s' = d
     else r = Ok tt /\
          storage s' = with_workouttype (workouttype d ++ [row]) d /\
          statements s' = (2 + k)%nat).
Proof.
  destruct s as [db h ss n k out]. cbv zeta.
  cbn [storage statements utcnow_calls stdout].
  rewrite run_query_workout_type_table.
  destruct (fails k); [|destruct (fails (S k))]; eexists _, _;
    (split; [reflexivity|]); cbn; done.
Qed.

(** X5.  [query_workout_type_table] does not look for the workout type
    it adds: two calls in a row, with an engine that carries out their
    four statements, leave two rows that differ in nothing but their
    keys, the second one more than the first, and their timestamps. *)
Theorem query_workout_type_table_twice (utc : nat -> datetime)
    (fails : nat -> bool) (foreign_keys : bool) (s : State) :
  (forall i, (i < 4)%nat -> fails (i + statements s)%nat = false) ->
  let d := storage s in
  let k := next_key (keys_of (workouttype d)) in
  let n := utcnow_calls s in
  let s1 := (query_workout_type_table utc fails foreign_keys s).2 in
  let s2 := (query_workout_type_table utc fails foreign_keys s1).2 in
  storage s2 =
    with_workouttype
      (workouttype d ++ [workout_row utc k n; workout_row utc (1 + k) (2 + n)]) d.
Proof.
  intros Hf. destruct s as [db h ss n k out]. cbv zeta.
  cbn [storage statements utcnow_calls] in *.
  pose proof (Hf 0%nat ltac:(lia)) as F0. pose proof (Hf 1%nat ltac:(lia)) as F1.
  pose proof (Hf 2%nat ltac:(lia)) as F2. pose proof (Hf 3%nat ltac:(lia)) as F3.
  cbn in F0, F1, F2, F3.
  rewrite run_query_workout_type_table, F0, F1. cbn [snd].
  rewrite run_query_workout_type_table, F2, F3. cbn [snd storage].
  unfold with_workouttype.
  cbn [workouttype user exercise workoutsession exerciselog].
  rewrite keys_of_snoc.
  cbn [key WorkoutType_model workout_row WorkoutType.workout_type_id].
  rewrite next_key_snoc, <- app_assoc. reflexivity.
Qed.

(** X5 at the gym, which has the workout type already. *)
Lemma query_workout_type_table_twice_witness :
  (forall i, (i < 4)%nat -> reliable (i + statements (boot gym))%nat = false) /\
  workouttype
    (storage (query_workout_type_table steady_clock reliable lenient
                (query_workout_type_table steady_clock reliable lenient (boot gym)).2).2)
  = workouttype gym ++ [workout_row steady_clock 2 0; workout_row steady_clock 3 2].
Proof.
  split; [reflexivity|].
  exact (f_equal workouttype
           (query_workout_type_table_twice steady_clock reliable lenient (boot gym)
              (fun i _ => eq_refl))).
Defined.
(** X6.  The session a call stores: one row at the end of the table,
    under a key that no row of the table had, for the user the caller
    named, who is in the user table when the engine enforces the foreign
    keys; its date is the first reading of the clock and its start the
    second; place, exertion and notes are the ones of the example and
    the source of the workout is not set. *)
Theorem stored_session_fields (utc : nat -> datetime) (fails : nat -> bool)
    (foreign_keys : bool) (uid : Z) (s s' : State) :
  create_workout_session utc fails foreign_keys uid s = (Ok tt, s') ->
  exercise (storage s) <> [] ->
  exists ws k,
    workoutsession (storage s') = workoutsession (storage s) ++ [ws] /\
    WorkoutSession.session_id ws = Some k /\
    (Some k ∉ keys_of (workoutsession (storage s))) /\
    WorkoutSession.user_id ws = Some uid /\
    (foreign_keys = true ->
     exists u, u ∈ user (storage s') /\ User.user_id u = Some uid) /\
    WorkoutSession.workout_date ws = utc (utcnow_calls s) /\
    WorkoutSession.start_time ws = Some (utc (1 + utcnow_calls s)%nat) /\
    WorkoutSession.location ws = Some "Home Gym"%string /\
    WorkoutSession.perceived_exertion ws = Some 7 /\
    WorkoutSession.notes ws = Some "Felt strong today"%string /\
    WorkoutSession.workout_source ws = None.
Proof.
  intros Hrun Hne.
  destruct (create_workout_session_stored utc fails foreign_keys uid s s' Hrun Hne)
    as (logs & Hst & Hu & _).
  eexists _, _. rewrite Hst. split; [reflexivity|]. split; [reflexivity|].
  split; [apply next_key_fresh|]. split; [reflexivity|].
  split; [|done].
  intros Hfk. apply key_in_table in Hu as (u & Hu & Hk); [|exact Hfk]. by exists u.
Qed.

(** X6 at the gym. *)
Lemma stored_session_fields_witness :
  exercise (storage (boot gym)) <> [] /\
  exists ws k,
    workoutsession gym_after = workoutsession gym ++ [ws] /\
    WorkoutSession.user_id ws = Some 1 /\
    WorkoutSession.session_id ws = Some k.
Proof.
  split; [discriminate|].
  destruct (stored_session_fields steady_clock reliable lenient 1 (boot gym)
              (create_workout_session steady_clock reliable lenient 1 (boot gym)).2)
    as (ws & k & Hws & Hk & _ & Hu & _).
  - vm_compute. reflexivity.
  - discriminate.
  - exists ws, k. split; [exact Hws|]. split; [exact Hu|exact Hk].
Defined.


(** X7.  Under a clock that never goes back, the times of a stored
    workout are in the order the code reads them: the date, the start,
    the creation of the session, then the creation of each log, the end
    of the workout and last the edit that the UPDATE stamps. *)
Theorem workout_timeline (utc : nat -> datetime) (fails : nat -> bool)
    (foreign_keys : bool) (uid : Z) (s s' : State) :
  monotone utc ->
  create_workout_session utc fails foreign_keys uid s = (Ok tt, s') ->
  exercise (storage s) <> [] ->
  exists ws logs b c e t,
    workoutsession (storage s') = workoutsession (storage s) ++ [ws] /\
    exerciselog (storage s') = exerciselog (storage s) ++ logs /\
    WorkoutSession.start_time ws = Some b /\
    WorkoutSession.created_timestamp ws = Some c /\
    WorkoutSession.end_time ws = Some e /\
    WorkoutSession.last_edited_timestamp ws = Some t /\
    WorkoutSession.workout_date ws <= b /\ b <= c /\ c <= e /\ e <= t /\
    Forall (fun l => exists cl, ExerciseLog.created_timestamp l = Some cl /\
                       c <= cl /\ cl <= e) logs.
Proof.
  intros Hmono Hrun Hne.
  destruct (create_workout_session_stored utc fails foreign_keys uid s s' Hrun Hne)
    as (logs & Hst & _ & Hrows).
  set (n := utcnow_calls s) in *.
  set (exs := take 3 (exercise (storage s))) in *.
  eexists _, logs, _, _, _, _. rewrite Hst.
  split; [reflexivity|]. split; [reflexivity|].
  do 4 (split; [reflexivity|]).
  cbn [WorkoutSession.workout_date session_row].
  split; [apply Hmono; lia|]. split; [apply Hmono; lia|].
  split; [apply Hmono; lia|]. split; [apply Hmono; lia|].
  eapply stored_Forall; [|exact Hrows|].
  - intros k l H. exact H.
  - eapply Forall_impl; [apply log_objects_readings|].
    intros l (i & Hi & Hc & _). exists (utc i). split; [exact Hc|].
    split; apply Hmono; lia.
Qed.

(** X7 at the gym, by the steady clock. *)
Lemma workout_timeline_witness :
  monotone steady_clock /\
  exercise (storage (boot gym)) <> [] /\
  exists ws b e,
    workoutsession gym_after = workoutsession gym ++ [ws] /\
    WorkoutSession.start_time ws = Some b /\
    WorkoutSession.end_time ws = Some e /\
    b <= e.
Proof.
  split; [exact steady_clock_monotone|]. split; [discriminate|].
  destruct (workout_timeline steady_clock reliable lenient 1 (boot gym)
              (create_workout_session steady_clock reliable lenient 1 (boot gym)).2)
    as (ws & logs & b & c & e & t & Hws & _ & Hb & _ & He & _ & _ & Hbc & Hce & _).
  - exact steady_clock_monotone.
  - vm_compute. reflexivity.
  - discriminate.
  - exists ws, b, e. split; [exact Hws|]. split; [exact Hb|]. split; [exact He|lia].
Defined.

(** X8.  Whatever happens, a call of [create_workout_session] leaves
    the users, the workout types and the exercises as they were, and
    every session and log the storage held where it was: the call only
    ever appends, at most one session. *)
Theorem create_workout_session_frame (utc : nat -> datetime) (fails : nat -> bool)
    (foreign_keys : bool) (uid : Z) (s : State) :
  let d := storage s in
  let d' := storage (create_workout_session utc fails foreign_keys uid s).2 in
  user d' = user d /\
  workouttype d' = workouttype d /\
  exercise d' = exercise d /\
  exists sessions logs,
    workoutsession d' = workoutsession d ++ sessions /\
    exerciselog d' = exerciselog d ++ logs /\
    (length sessions <= 1)%nat.
Proof.
  cbv zeta.
  destruct (create_workout_session_rows utc fails foreign_keys uid s)
    as (r & s' & sessions & logs & Hrun & Hst & Hcase).
  rewrite Hrun. cbn [snd]. rewrite Hst. do 3 (split; [reflexivity|]).
  exists sessions, logs. do 2 (split; [reflexivity|]).
  destruct Hcase as [(-> & _)|(_ & _ & _ & _ & -> & _)]; cbn; lia.
Qed.

(** X9.  Two calls in a row that both return: each stores a session of
    its own, the second under the next key, and each log belongs to the
    session of the call that built it; both calls read the same
    exercises, so their logs name the same exercises in the same order. *)
Theorem two_workouts_two_sessions (utc : nat -> datetime) (fails : nat -> bool)
    (foreign_keys : bool) (uid1 uid2 : Z) (s s1 s2 : State) :
  create_workout_session utc fails foreign_keys uid1 s = (Ok tt, s1) ->
  create_workout_session utc fails foreign_keys uid2 s1 = (Ok tt, s2) ->
  exercise (storage s) <> [] ->
  exists ws1 ws2 logs1 logs2 k,
    workoutsession (storage s2) = workoutsession (storage s) ++ [ws1; ws2] /\
    exerciselog (storage s2) = exerciselog (storage s) ++ logs1 ++ logs2 /\
    WorkoutSession.session_id ws1 = Some k /\
    WorkoutSession.session_id ws2 = Some (1 + k) /\
    WorkoutSession.user_id ws1 = Some uid1 /\
    WorkoutSession.user_id ws2 = Some uid2 /\
    Forall (fun l => ExerciseLog.session_id l = Some k) logs1 /\
    Forall (fun l => ExerciseLog.session_id l = Some (1 + k)) logs2 /\
    ExerciseLog.exercise_id <$> logs1 = ExerciseLog.exercise_id <$> logs2.
Proof.
  intros Hrun1 Hrun2 Hne.
  destruct (create_workout_session_stored utc fails foreign_keys uid1 s s1 Hrun1 Hne)
    as (logs1 & Hst1 & _ & Hrows1).
  assert (Hex : exercise (storage s1) = exercise (storage s)) by (by rewrite Hst1).
  assert (Hne1 : exercise (storage s1) <> []) by (by rewrite Hex).
  destruct (create_workout_session_stored utc fails foreign_keys uid2 s1 s2 Hrun2 Hne1)
    as (logs2 & Hst2 & _ & Hrows2).
  rewrite Hex in Hst2, Hrows2.
  set (exs := take 3 (exercise (storage s))) in *.
  set (sk := next_key (keys_of (workoutsession (storage s)))) in *.
  assert (Hsk : next_key (keys_of (workoutsession (storage s1))) = 1 + sk).
  { rewrite Hst1. unfold with_exerciselog, with_workoutsession.
    cbn [workoutsession]. rewrite keys_of_snoc. apply next_key_snoc. }
  rewrite Hsk in Hst2, Hrows2.
  eexists _, _, logs1, logs2, sk. rewrite Hst2, Hst1.
  unfold with_exerciselog, with_workoutsession.
  cbn [workoutsession exerciselog user workouttype exercise].
  rewrite <- !app_assoc. split; [reflexivity|]. split; [reflexivity|].
  do 4 (split; [reflexivity|]).
  split; [|split].
  - eapply stored_Forall; [|exact Hrows1|apply log_objects_session].
    intros k l H. exact H.
  - eapply stored_Forall; [|exact Hrows2|apply log_objects_session].
    intros k l H. exact H.
  - rewrite (stored_fmap ExerciseLog.exercise_id _ _ (fun k l => eq_refl) Hrows1).
    rewrite (stored_fmap ExerciseLog.exercise_id _ _ (fun k l => eq_refl) Hrows2).
    by rewrite !log_objects_exercises.
Qed.

(** X9 at the gym: user 1 works out twice. *)
Lemma two_workouts_two_sessions_witness :
  exercise (storage (boot gym)) <> [] /\
  exists ws1 ws2,
    workoutsession
      (storage (create_workout_session steady_clock reliable lenient 1
                  (create_workout_session steady_clock reliable lenient 1 (boot gym)).2).2)
    = workoutsession gym ++ [ws1; ws2] /\
    WorkoutSession.session_id ws1 <> WorkoutSession.session_id ws2.
Proof.
  split; [discriminate|].
  destruct (two_workouts_two_sessions steady_clock reliable lenient 1 1 (boot gym)
              (create_workout_session steady_clock reliable lenient 1 (boot gym)).2
              (create_workout_session steady_clock reliable lenient 1
                 (create_workout_session steady_clock reliable lenient 1 (boot gym)).2).2)
    as (ws1 & ws2 & logs1 & logs2 & k & Hws & _ & Hk1 & Hk2 & _).
  - vm_compute. reflexivity.
  - vm_compute. reflexivity.
  - discriminate.
  - exists ws1, ws2. split; [exact Hws|]. rewrite Hk1, Hk2. intros [= H]. lia.
Defined.
(** X13.  With an engine that fails nothing and a user key it can
    store, [create_workout_session] returns exactly when there is no
    exercise to read, or the exercises it reads have their keys and the
    user is in the table or the engine does not enforce the foreign
    keys. *)
Theorem create_workout_session_returns (utc : nat -> datetime) (fails : nat -> bool)
    (foreign_keys : bool) (uid : Z) (s : State) :
  (forall i, fails i = false) ->
  storable uid ->
  (create_workout_session utc fails foreign_keys uid s).1 = Ok tt <->
  exercise (storage s) = [] \/
  ((foreign_keys = true -> Some uid ∈ keys_of (user (storage s))) /\
   Forall (fun x => is_Some (Exercise.exercise_id x)) (take 3 (exercise (storage s)))).
Proof.
  intros Hf _. split.
  - intros Hrun.
    destruct (create_workout_session_outcome utc fails foreign_keys uid s)
      as (r & s' & Hrun' & Hr).
    rewrite Hrun' in Hrun. cbn in Hrun. subst r.
    destruct Hr as [[Hnil _]|(_ & Hu & Hk & _)]; [left|by right].
    destruct (exercise (storage s)); [done|discriminate Hnil].
  - intros [Hnil|[Hu Hk]].
    + destruct s as [db h ss n k out]. cbn [storage] in Hnil.
      unfold create_workout_session. rewrite run_with_Session.
      rewrite run_bind, run_query_Exercise_limit, Hf, Hnil. reflexivity.
    + destruct (create_workout_session_succeeds utc fails foreign_keys uid s Hf Hu Hk)
        as [s' Hrun].
      by rewrite Hrun.
Qed.

(** X13 at the gym: the exercises have their keys, user 1 is there, and
    nobody has the key 99. *)
Lemma create_workout_session_returns_witness :
  (forall i, reliable i = false) /\
  storable 1 /\ storable 99 /\
  (create_workout_session steady_clock reliable strict 1 (boot gym)).1 = Ok tt /\
  (create_workout_session steady_clock reliable lenient 99 (boot gym)).1 = Ok tt /\
  (create_workout_session steady_clock reliable strict 99 (boot gym)).1 <> Ok tt.
Proof.
  assert (H1 : storable 1) by (unfold storable; lia).
  assert (H99 : storable 99) by (unfold storable; lia).
  split; [reflexivity|]. split; [exact H1|]. split; [exact H99|]. split; [|split].
  - apply (create_workout_session_returns steady_clock reliable strict 1 (boot gym)
             (fun i => eq_refl) H1).
    right. split; [intros _; apply list_elem_of_here|].
    repeat constructor; by eexists.
  - apply (create_workout_session_returns steady_clock reliable lenient 99 (boot gym)
             (fun i => eq_refl) H99).
    right. split; [discriminate|].
    repeat constructor; by eexists.
  - intros Hrun.
    apply (create_workout_session_returns steady_clock reliable strict 99 (boot gym)
             (fun i => eq_refl) H99) in Hrun as [Hnil|[Hu _]]; [discriminate Hnil|].
    specialize (Hu eq_refl).
    apply elem_of_cons in Hu as [Hu|Hu]; [discriminate|].
    by apply elem_of_nil in Hu.
Defined.


(** * What the second example prints *)

Section Printed.

Variable utc : nat -> datetime.
Variable fails : nat -> bool.
Variable foreign_keys : bool.
Variable out : list string.

Lemma printed_utcnow : keeps (printed out) (utcnow utc).
Proof. intros s H. exact H. Qed.

Lemma printed_execute : keeps (printed out) (execute fails).
Proof. intros s H. exact H. Qed.

Lemma printed_publish : keeps (printed out) publish.
Proof. intros s H. exact H. Qed.

Lemma printed_get_session : keeps (printed out) get_session.
Proof. intros s H. exact H. Qed.

Lemma printed_the_WorkoutSession r : keeps (printed out) (the_WorkoutSession r).
Proof.
  intros s H. unfold the_WorkoutSession, deref. cbv [mbind M_bind].
  destruct (heap s !! r) as [[]|]; exact H.
Qed.

Lemma printed_session_add r : keeps (printed out) (session_add r).
Proof.
  intros s H. unfold session_add. cbv [mbind M_bind get_session put_session].
  destruct (bool_decide _); exact H.
Qed.

Lemma printed_assign_WorkoutSession r f :
  keeps (printed out) (assign_WorkoutSession r f).
Proof.
  intros s H. unfold assign_WorkoutSession, the_WorkoutSession, deref.
  cbv [mbind M_bind get_session put_session write].
  destruct (heap s !! r) as [[]|]; try exact H.
  cbn. destruct (_ && _); exact H.
Qed.

Lemma printed_default_factory passed : keeps (printed out) (default_factory utc passed).
Proof. intros s H. by destruct passed. Qed.

Lemma printed_alloc o : keeps (printed out) (alloc o).
Proof. intros s H. exact H. Qed.

Lemma printed_WorkoutSession_init ct et a b c d e f g h i :
  keeps (printed out) (WorkoutSession_init utc ct et a b c d e f g h i).
Proof.
  unfold WorkoutSession_init.
  apply keeps_bind; [apply printed_default_factory|]. intros c'.
  apply keeps_bind; [apply printed_default_factory|]. intros e'.
  apply keeps_bind; [destruct b; [apply keeps_ret|apply printed_utcnow]|]. intros d'.
  apply printed_alloc.
Qed.

Lemma printed_ExerciseLog_init ct et a b c d e f g h i :
  keeps (printed out) (ExerciseLog_init utc ct et a b c d e f g h i).
Proof.
  unfold ExerciseLog_init.
  apply keeps_bind; [apply printed_default_factory|]. intros c'.
  apply keeps_bind; [apply printed_default_factory|]. intros e'.
  apply printed_alloc.
Qed.

Lemma printed_column_defaults o : keeps (printed out) (column_defaults utc o).
Proof.
  intros s H. unfold column_defaults, default_created.
  destruct o as [x|x|x|x|x]; cbv [mbind M_bind mret M_ret utcnow];
    destruct (created x); exact H.
Qed.

Lemma printed_insert_object r : keeps (printed out) (insert_object utc fails foreign_keys r).
Proof.
  unfold insert_object.
  apply keeps_bind; [intros s H; unfold deref; by destruct (heap s !! r)|]. intros o.
  apply keeps_bind; [apply printed_column_defaults|]. intros o'.
  apply keeps_bind; [apply printed_execute|]. intros _.
  apply keeps_bind; [apply printed_get_session|]. intros ss.
  intros [db h ss' n k out'] H. open_step.
  destruct o' as [x|x|x|x|x]; cbv beta iota.
  - destruct (insert_user x _) as [[row d']|e]; exact H.
  - destruct (insert_workouttype x _) as [[row d']|e]; exact H.
  - destruct (insert_exercise _ x _) as [[row d']|e]; exact H.
  - destruct (insert_workoutsession _ x _) as [[row d']|e]; exact H.
  - destruct (insert_exerciselog _ x _) as [[row d']|e]; exact H.
Qed.

Lemma printed_update_object r : keeps (printed out) (update_object utc fails foreign_keys r).
Proof.
  intros [db h [tx nw idm dt] n k out'] H.
  unfold update_object. open_step.
  destruct (h !! r) as [o|]; [|exact H]. cbv beta iota. open_step.
  destruct (fails k); [exact H|].
  destruct o as [x|x|x|x|x]; cbv beta iota.
  - destruct (update_user _ tx) as [d'|e]; exact H.
  - destruct (update_workouttype _ tx) as [d'|e]; exact H.
  - destruct (update_exercise _ _ tx) as [d'|e]; exact H.
  - destruct (update_workoutsession _ _ tx) as [d'|e]; exact H.
  - destruct (update_exerciselog _ _ tx) as [d'|e]; exact H.
Qed.

Lemma printed_flushed l :
  keeps (printed out)
    (ss' ← get_session; put_session (mkSession (transaction ss') [] l [])).
Proof. intros s H. exact H. Qed.

Lemma printed_session_flush : keeps (printed out) (session_flush utc fails foreign_keys).
Proof.
  unfold session_flush. apply keeps_bind; [apply printed_get_session|]. intros ss.
  apply keeps_bind; [apply keeps_for_each, printed_update_object|]. intros _.
  apply keeps_bind; [apply keeps_for_each, printed_insert_object|]. intros _.
  apply printed_flushed.
Qed.

Lemma printed_session_commit : keeps (printed out) (session_commit utc fails foreign_keys).
Proof.
  unfold session_commit. apply keeps_bind; [apply printed_session_flush|]. intros _.
  apply keeps_bind; [apply printed_execute|]. intros _. apply printed_publish.
Qed.

End Printed.

Ltac keeps_printed :=
  repeat first
    [ apply keeps_ret
    | apply keeps_raise
    | apply printed_utcnow
    | apply printed_the_WorkoutSession
    | apply printed_session_add
    | apply printed_assign_WorkoutSession
    | apply printed_WorkoutSession_init
    | apply printed_ExerciseLog_init
    | apply printed_session_flush
    | apply printed_session_commit
    | apply keeps_for_each; intros
    | apply keeps_bind; [|intros]
    | match goal with
      | |- keeps _ (match ?x with _ => _ end) => destruct x
      end ].

(** X14.  [create_workout_session] prints its one line when it returns
    having found no exercise, and nothing in any other case: not when
    it stores a workout and not when it raises. *)
Theorem prints_only_without_exercises (utc : nat -> datetime) (fails : nat -> bool)
    (foreign_keys : bool) (uid : Z) (s : State) :
  let run := create_workout_session utc fails foreign_keys uid s in
  (run.1 = Ok tt -> exercise (storage s) = [] ->
   stdout run.2
   = stdout s ++ ["No exercises found. Please add exercises first."%string]) /\
  (run.1 <> Ok tt \/ exercise (storage s) <> [] -> stdout run.2 = stdout s).
Proof.
  destruct s as [db h ss n k out]. cbv zeta. cbn [storage stdout].
  unfold create_workout_session. rewrite run_with_Session.
  rewrite run_bind, run_query_Exercise_limit.
  destruct (fails k).
  { cbn. split; [intros H; discriminate H|done]. }
  destruct (exercise db) as [|e0 l] eqn:Hex.
  { cbn. split; [done|]. intros [H|H]; done. }
  cbn [take]. cbv beta iota.
  match goal with
  | |- context [(?m ≫= ?f) (mkState ?a ?b ?c ?d ?e ?g)] =>
      assert (Hk : keeps (printed out) (m ≫= f)) by keeps_printed;
      specialize (Hk (mkState a b c d e g) eq_refl);
      destruct ((m ≫= f) (mkState a b c d e g)) as [r s']
  end.
  cbn in *. split; [intros _ H; discriminate H|]. intros _. exact Hk.
Qed.

(** X14 at the gym, where there are exercises. *)
Lemma prints_only_without_exercises_witness :
  exercise (storage (boot gym)) <> [] /\
  stdout (create_workout_session steady_clock reliable lenient 1 (boot gym)).2 = [].
Proof.
  split; [discriminate|].
  apply (proj2 (prints_only_without_exercises steady_clock reliable lenient 1 (boot gym))).
  right. discriminate.
Defined.
